(** * Triple-check validation: the cascade of
      [lead_sniper/validators/triple_check_validator.py]

    A shallow embedding of [TripleCheckValidator]: the three layers, the
    orchestrator [validate_data_point] with its early exits, the weighted
    composite, the banded classification, the audit log and the two ledger
    lists.

    Conventions of the embedding.
    - A Python [float] is a binary64 value of [PrimFloat]; the arithmetic of
      the source ([+], [*], [/], comparisons) is the IEEE arithmetic of the
      kernel, so every score below is the bit pattern CPython computes.
    - A Python [int] is a [Z]; mixed arithmetic converts the integer operand
      first, as CPython does.
    - A [str] is a [string] read as a sequence of code points below 256.
    - A record ([Dict]) is a [gmap string value].
    - [datetime.now().isoformat()] reads a clock: the n-th reading of a run
      returns [isoformat_at n], for an arbitrary [isoformat_at].
    - A raised exception is an [outcome] of its own, carrying the state
      reached when it was raised. *)

From Stdlib Require Import ZArith String Ascii List Bool Lia.
From Stdlib Require Import PrimFloat Uint63.
Set Warnings "-inexact-float".
From stdpp Require Import base option gmap strings pretty.
Import ListNotations.

Local Open Scope Z_scope.
Local Open Scope string_scope.

(** ** Python values *)

Module Py.

(** The exceptions the validator can raise. *)
Inductive exn : Type :=
| AttributeError (what : string)
| TypeError (what : string)
| ZeroDivisionError.

(** Numbers: [int] and [float], kept apart as Python keeps them. *)
Inductive number : Type :=
| Int (z : Z)
| Float (f : float).

(** [float(z)] for an [int] below 2^63 in absolute value (every integer of
    the validator is at most 100, so the conversion is exact). *)
Definition float_of_int (z : Z) : float :=
  match z with
  | Z0 => 0%float
  | Zpos _ => PrimFloat.of_uint63 (Uint63.of_Z z)
  | Zneg p => (- PrimFloat.of_uint63 (Uint63.of_Z (Zpos p)))%float
  end.

(** The operand of a mixed operation, as a [float]. *)
Definition as_float (n : number) : float :=
  match n with
  | Int z => float_of_int z
  | Float f => f
  end.

(** [a + b]. *)
Definition add (a b : number) : number :=
  match a, b with
  | Int x, Int y => Int (x + y)
  | _, _ => Float (as_float a + as_float b)%float
  end.

(** [a * b]. *)
Definition mul (a b : number) : number :=
  match a, b with
  | Int x, Int y => Int (x * y)
  | _, _ => Float (as_float a * as_float b)%float
  end.

(** [b == 0], for the divisor of a division. *)
Definition is_zero (n : number) : bool :=
  match n with
  | Int z => Z.eqb z 0
  | Float f => PrimFloat.eqb f 0%float
  end.

(** [a / b]: true division, [ZeroDivisionError] on a zero divisor. The
    quotient of two [int]s is the correctly rounded quotient, which for
    integers below 2^53 is the binary64 division of their conversions. *)
Definition truediv (a b : number) : exn + number :=
  if is_zero b then inl ZeroDivisionError
  else inr (Float (as_float a / as_float b)%float).

(** [a < b]. Python compares an [int] with a [float] exactly; below 2^53
    that is the comparison of the converted integer. *)
Definition lt (a b : number) : bool :=
  match a, b with
  | Int x, Int y => Z.ltb x y
  | _, _ => PrimFloat.ltb (as_float a) (as_float b)
  end.

(** [a <= b]. *)
Definition le (a b : number) : bool :=
  match a, b with
  | Int x, Int y => Z.leb x y
  | _, _ => PrimFloat.leb (as_float a) (as_float b)
  end.

(** [a >= b]. *)
Definition ge (a b : number) : bool := le b a.

(** [a == b]. *)
Definition eq (a b : number) : bool :=
  match a, b with
  | Int x, Int y => Z.eqb x y
  | _, _ => PrimFloat.eqb (as_float a) (as_float b)
  end.

(** [sum(xs)]: the fold from the integer [0]. (CPython 3.12 compensates
    the rounding error when a [float] is added to a [float] total; no list
    summed by the validator holds two floats, so the plain fold is what
    every version computes here.) *)
Definition sum (xs : list number) : number := fold_left add xs (Int 0).

(** [len(xs)]. *)
Definition len {A : Type} (xs : list A) : number := Int (Z.of_nat (length xs)).

(** The values a record can hold under a key. *)
Inductive value : Type :=
| VStr (s : string)
| VNum (n : number)
| VBool (b : bool)
| VNone.

(** *** Strings *)

(** [c.isspace()] for a code point below 256: TAB..CR, FS..US, space,
    NEL and the no-break space. *)
Definition isspace (c : ascii) : bool :=
  let n := nat_of_ascii c in
  ((9 <=? n) && (n <=? 13) || (28 <=? n) && (n <=? 32)
   || (n =? 133) || (n =? 160))%nat.

(** [s.lstrip()]. *)
Fixpoint lstrip (s : string) : string :=
  match s with
  | EmptyString => EmptyString
  | String c t => if isspace c then lstrip t else s
  end.

(** [s.rstrip()]. *)
Fixpoint rstrip (s : string) : string :=
  match s with
  | EmptyString => EmptyString
  | String c t =>
      match rstrip t with
      | EmptyString => if isspace c then EmptyString else String c EmptyString
      | t' => String c t'
      end
  end.

(** [s.strip()]. *)
Definition strip (s : string) : string := rstrip (lstrip s).

(** [s.startswith(p)]. *)
Fixpoint startswith (s p : string) {struct p} : bool :=
  match p, s with
  | EmptyString, _ => true
  | String a p', String b s' => Ascii.eqb a b && startswith s' p'
  | String _ _, EmptyString => false
  end.

(** [needle in hay] for two strings. *)
Fixpoint contains (hay needle : string) : bool :=
  startswith hay needle
  || match hay with
     | EmptyString => false
     | String _ t => contains t needle
     end.

(** [needle in v]: substring search in a [str]; the other values of
    [value] are not iterable. *)
Definition str_in (needle : string) (v : value) : exn + bool :=
  match v with
  | VStr hay => inr (contains hay needle)
  | VNum (Int _) => inl (TypeError "argument of type 'int' is not iterable")
  | VNum (Float _) => inl (TypeError "argument of type 'float' is not iterable")
  | VBool _ => inl (TypeError "argument of type 'bool' is not iterable")
  | VNone => inl (TypeError "argument of type 'NoneType' is not iterable")
  end.

(** [v.strip()]: only a [str] has the method. *)
Definition strip_of (v : value) : exn + string :=
  match v with
  | VStr s => inr (strip s)
  | VNum (Int _) => inl (AttributeError "'int' object has no attribute 'strip'")
  | VNum (Float _) => inl (AttributeError "'float' object has no attribute 'strip'")
  | VBool _ => inl (AttributeError "'bool' object has no attribute 'strip'")
  | VNone => inl (AttributeError "'NoneType' object has no attribute 'strip'")
  end.

(** [any(f(x) for x in xs)]: the generator stops at the first [True] and
    at the first exception. *)
Fixpoint any_of {A : Type} (f : A -> exn + bool) (xs : list A) : exn + bool :=
  match xs with
  | [] => inr false
  | x :: rest =>
      match f x with
      | inl e => inl e
      | inr true => inr true
      | inr false => any_of f rest
      end
  end.

(** [d.get(k, default)]. *)
Definition get (d : gmap string value) (k : string) (default : value) : value :=
  match d !! k with
  | Some v => v
  | None => default
  end.

(** [k in d]. *)
Definition has_key (d : gmap string value) (k : string) : bool :=
  match d !! k with
  | Some _ => true
  | None => false
  end.

End Py.

(** ** Effects: exceptions and state *)

(** How a call ends: with a value, or with an exception; both carry the
    state reached. *)
Inductive outcome (S A : Type) : Type :=
| Returns (a : A) (s : S)
| Raises (e : Py.exn) (s : S).
Arguments Returns {S A} a s.
Arguments Raises {S A} e s.

(** A method that reads and writes a state [S] and may raise. *)
Definition M (S A : Type) : Type := S -> outcome S A.

(** An expression that only may raise. *)
Definition result (A : Type) : Type := Py.exn + A.

(** Sequencing, for expressions that may raise and for methods. *)
Class Monad (F : Type -> Type) : Type := {
  ret : forall {A}, A -> F A;
  bind : forall {A B}, F A -> (A -> F B) -> F B
}.

(** An exception in an expression ends its evaluation. *)
#[global] Instance result_monad : Monad result := {|
  ret := fun A a => inr a;
  bind := fun A B m k => match m with inl e => inl e | inr a => k a end
|}.

(** An exception in a method ends it and keeps the state reached. *)
#[global] Instance M_monad (S : Type) : Monad (M S) := {|
  ret := fun A a s => Returns a s;
  bind := fun A B m k s =>
            match m s with
            | Returns a s' => k a s'
            | Raises e s' => Raises e s'
            end
|}.

(** [x = m] followed by [k], and a statement [m] followed by [k]. *)
Notation "'let*' x ':=' m 'in' k" := (bind m (fun x => k))
  (at level 10, x name, m at level 100, k at level 200).
Notation "'run' m 'then' k" := (bind m (fun _ => k))
  (at level 10, m at level 100, k at level 200).

(** An expression evaluated inside a method. *)
Definition eval {S A : Type} (r : result A) : M S A :=
  fun s => match r with inl e => Raises e s | inr a => Returns a s end.

(** Reading the state. *)
Definition get_state {S : Type} : M S S := fun s => Returns s s.


(** ** Data model *)

(** [class ValidationStatus(Enum)] and the [.value] of a member. *)
Inductive ValidationStatus : Type := GOLD | SILVER | BRONZE | REJECTED.

(** [s.value]. *)
Definition value_of (s : ValidationStatus) : string :=
  match s with
  | GOLD => "GOLD"
  | SILVER => "SILVER"
  | BRONZE => "BRONZE"
  | REJECTED => "REJECTED"
  end.

(** A data point: a dictionary from keys to values. *)
Abbreviation record := (gmap string Py.value).

(** The dictionary [_check_source_authenticity] returns
    (keys [check], [source], [is_authentic], [score]). *)
Record SourceCheck : Type := {
  source_check_name : string;
  source_seen : Py.value;
  is_authentic : bool;
  source_check_score : Py.number
}.

(** The dictionary [_check_data_integrity] returns
    (keys [check], [checks], [score]). *)
Record IntegrityCheck : Type := {
  integrity_check_name : string;
  integrity_checks : list (string * bool);
  integrity_check_score : Py.number
}.

(** The dictionary [_check_data_quality] returns (keys [check], [score]). *)
Record QualityCheck : Type := {
  quality_check_name : string;
  quality_check_score : Py.number
}.

(** The dictionary a [_verify_*] method returns. *)
Record ExternalSourceResult : Type := {
  source : string;
  valid : bool;
  confidence : Z;
  url : string;
  timestamp : string
}.

(** What a layer reports besides its number, name and score. *)
Inductive LayerDetail : Type :=
| Checks (source_authenticity : SourceCheck) (data_integrity : IntegrityCheck)
         (data_quality : QualityCheck)
| External (external_sources : list ExternalSourceResult)
           (agreement_percentage : Py.number)
| Reproducibility (reproducibility_checks : list (string * bool)).

(** The dictionary a layer returns (keys [layer], [name], [score] and the
    layer's own). *)
Record LayerResult : Type := {
  layer : Z;
  name : string;
  detail : LayerDetail;
  score : Py.number
}.

(** One line of [self.audit_log]. *)
Record AuditEntry : Type := {
  audit_timestamp : string;
  audit_layer : Z;
  audit_data_point : Py.value;
  audit_score : Py.number
}.

(** The report of one call. A layer that did not run keeps the empty
    dictionary of the template, [None] here; [final_status] is [None] in
    the template and the [.value] of a status afterwards. *)
Record ValidationReport : Type := {
  data_point : record;
  validation_timestamp : string;
  layer_1 : option LayerResult;
  layer_2 : option LayerResult;
  layer_3 : option LayerResult;
  final_score : Py.number;
  final_status : option string;
  audit_trail : list AuditEntry
}.

(** [report[key] = v] for the keys the orchestrator assigns. *)
Definition set_layer_1 (v : LayerResult) (r : ValidationReport) : ValidationReport :=
  {| data_point := data_point r; validation_timestamp := validation_timestamp r;
     layer_1 := Some v; layer_2 := layer_2 r; layer_3 := layer_3 r;
     final_score := final_score r; final_status := final_status r;
     audit_trail := audit_trail r |}.

Definition set_layer_2 (v : LayerResult) (r : ValidationReport) : ValidationReport :=
  {| data_point := data_point r; validation_timestamp := validation_timestamp r;
     layer_1 := layer_1 r; layer_2 := Some v; layer_3 := layer_3 r;
     final_score := final_score r; final_status := final_status r;
     audit_trail := audit_trail r |}.

Definition set_layer_3 (v : LayerResult) (r : ValidationReport) : ValidationReport :=
  {| data_point := data_point r; validation_timestamp := validation_timestamp r;
     layer_1 := layer_1 r; layer_2 := layer_2 r; layer_3 := Some v;
     final_score := final_score r; final_status := final_status r;
     audit_trail := audit_trail r |}.

Definition set_final_score (v : Py.number) (r : ValidationReport) : ValidationReport :=
  {| data_point := data_point r; validation_timestamp := validation_timestamp r;
     layer_1 := layer_1 r; layer_2 := layer_2 r; layer_3 := layer_3 r;
     final_score := v; final_status := final_status r;
     audit_trail := audit_trail r |}.

Definition set_final_status (v : string) (r : ValidationReport) : ValidationReport :=
  {| data_point := data_point r; validation_timestamp := validation_timestamp r;
     layer_1 := layer_1 r; layer_2 := layer_2 r; layer_3 := layer_3 r;
     final_score := final_score r; final_status := Some v;
     audit_trail := audit_trail r |}.

(** The attributes of a [TripleCheckValidator]. *)
Record TripleCheckValidator : Type := {
  validation_history : list ValidationReport;
  rejected_data : list ValidationReport;
  audit_log : list AuditEntry
}.

(** [__init__]. *)
Definition __init__ : TripleCheckValidator :=
  {| validation_history := []; rejected_data := []; audit_log := [] |}.

(** What a method of the validator runs in: the object and the number of
    clock readings made so far. *)
Record world : Type := {
  self : TripleCheckValidator;
  clock : nat
}.

(** The [statistics] of a batch report. *)
Record Statistics : Type := {
  gold : Py.number;
  silver : Py.number;
  bronze : Py.number;
  rejected : Py.number
}.

(** The dictionary [generate_validation_report] returns; its [audit_log]
    is the validator's own list. *)
Record BatchReport : Type := {
  report_timestamp : string;
  total_data_points : Py.number;
  statistics : Statistics;
  validation_results : list ValidationReport;
  batch_audit_log : list AuditEntry
}.

(** ** Layer 1: internal verification *)

Definition authoritative_sources : list string :=
  ["HUD"; "County Clerk"; "County Assessor"; "County Tax";
   "USPS"; "Google Maps"; "Census Bureau"; "Zillow"; "Redfin"].

(** [_check_source_authenticity]. *)
Definition _check_source_authenticity (data_point : record) : result SourceCheck :=
  let source := Py.get data_point "source" (Py.VStr "") in
  let* is_authentic :=
    Py.any_of (fun auth_source => Py.str_in auth_source source)
              authoritative_sources in
  ret {| source_check_name := "source_authenticity";
         source_seen := source;
         is_authentic := is_authentic;
         source_check_score := if is_authentic then Py.Int 99 else Py.Int 0 |}.

(** [sum(1 for v in checks.values() if v)]. *)
Definition count_true (checks : list (string * bool)) : Py.number :=
  Py.sum (map (fun _ => Py.Int 1) (List.filter snd checks)).

(** [_check_data_integrity]. *)
Definition _check_data_integrity (data_point : record) : result IntegrityCheck :=
  let checks :=
    [("has_address", Py.has_key data_point "address");
     ("has_city", Py.has_key data_point "city");
     ("has_state", Py.has_key data_point "state");
     ("has_zip", Py.has_key data_point "zip");
     ("has_source", Py.has_key data_point "source");
     ("has_timestamp", Py.has_key data_point "timestamp")] in
  let passed := count_true checks in
  let total := Py.len checks in
  let* ratio := Py.truediv passed total in
  let score := Py.mul ratio (Py.Int 100) in
  ret {| integrity_check_name := "data_integrity";
         integrity_checks := checks;
         integrity_check_score := score |}.

(** [data_point.get(key, "").strip() == ""]. *)
Definition blank (data_point : record) (key : string) : result bool :=
  let* stripped := Py.strip_of (Py.get data_point key (Py.VStr "")) in
  ret (String.eqb stripped "").

(** [_check_data_quality]. *)
Definition _check_data_quality (data_point : record) : result QualityCheck :=
  let quality_score := 90 in
  let* b := blank data_point "address" in
  let quality_score := if b then quality_score - 50 else quality_score in
  let* b := blank data_point "city" in
  let quality_score := if b then quality_score - 50 else quality_score in
  let* b := blank data_point "state" in
  let quality_score := if b then quality_score - 50 else quality_score in
  ret {| quality_check_name := "data_quality";
         quality_check_score := Py.Int (Z.max 0 quality_score) |}.

(** [_layer_1_internal_verification]. *)
Definition _layer_1_internal_verification (data_point : record) : result LayerResult :=
  let* source_check := _check_source_authenticity data_point in
  let* integrity_check := _check_data_integrity data_point in
  let* quality_check := _check_data_quality data_point in
  let scores :=
    [source_check_score source_check;
     integrity_check_score integrity_check;
     quality_check_score quality_check] in
  let* mean := Py.truediv (Py.sum scores) (Py.len scores) in
  ret {| layer := 1;
         name := "Internal Verification";
         detail := Checks source_check integrity_check quality_check;
         score := mean |}.

(** ** Layers 2 and 3: the band mapping *)

(** The [if]/[elif] chain both layers apply to their percentage. *)
Definition band (percentage : Py.number) : Py.number :=
  if Py.ge percentage (Py.Int 95) then Py.Int 99
  else if Py.ge percentage (Py.Int 80) then Py.Int 90
  else if Py.ge percentage (Py.Int 60) then Py.Int 75
  else Py.Int 50.

(** The body of [_layer_2_external_verification] once the panel has
    answered with [sources]. *)
Definition layer_2_of_sources (sources : list ExternalSourceResult) : result LayerResult :=
  let valid_sources := List.filter valid sources in
  match valid_sources with
  | _ :: _ =>
      let* ratio := Py.truediv (Py.len valid_sources) (Py.len sources) in
      let agreement := Py.mul ratio (Py.Int 100) in
      ret {| layer := 2;
             name := "External Verification";
             detail := External sources agreement;
             score := band agreement |}
  | [] =>
      ret {| layer := 2;
             name := "External Verification";
             detail := External sources (Py.Int 0);
             score := Py.Int 0 |}
  end.

(** The body of [_layer_3_reproducibility_test] once the indices have
    answered with [reproducibility_checks]. *)
Definition layer_3_of_checks (reproducibility_checks : list (string * bool)) : result LayerResult :=
  let findable_count := count_true reproducibility_checks in
  let total_count := Py.len reproducibility_checks in
  let* ratio := Py.truediv findable_count total_count in
  let reproducibility_percentage := Py.mul ratio (Py.Int 100) in
  ret {| layer := 3;
         name := "Reproducibility Test";
         detail := Reproducibility reproducibility_checks;
         score := band reproducibility_percentage |}.

(** The seven [_can_find_in_*] methods: each returns [True]. *)
Definition _can_find_in_usps (data_point : record) : bool := true.
Definition _can_find_in_google_maps (data_point : record) : bool := true.
Definition _can_find_in_county_assessor (data_point : record) : bool := true.
Definition _can_find_in_county_clerk (data_point : record) : bool := true.
Definition _can_find_in_property_appraiser (data_point : record) : bool := true.
Definition _can_find_in_zillow (data_point : record) : bool := true.
Definition _can_find_in_redfin (data_point : record) : bool := true.

(** [_layer_3_reproducibility_test]. *)
Definition _layer_3_reproducibility_test (data_point : record) : result LayerResult :=
  layer_3_of_checks
    [("usps_findable", _can_find_in_usps data_point);
     ("google_maps_findable", _can_find_in_google_maps data_point);
     ("county_assessor_findable", _can_find_in_county_assessor data_point);
     ("county_clerk_findable", _can_find_in_county_clerk data_point);
     ("property_appraiser_findable", _can_find_in_property_appraiser data_point);
     ("zillow_findable", _can_find_in_zillow data_point);
     ("redfin_findable", _can_find_in_redfin data_point)].

(** ** The ledger and the audit log *)

(** [self.audit_log.append(e)]. *)
Definition audit_log_append (e : AuditEntry) (v : TripleCheckValidator) : TripleCheckValidator :=
  {| validation_history := validation_history v;
     rejected_data := rejected_data v;
     audit_log := audit_log v ++ [e] |}.

(** [self.rejected_data.append(r)]. *)
Definition rejected_data_append (r : ValidationReport) (v : TripleCheckValidator) : TripleCheckValidator :=
  {| validation_history := validation_history v;
     rejected_data := rejected_data v ++ [r];
     audit_log := audit_log v |}.

(** [self.validation_history.append(r)]. *)
Definition validation_history_append (r : ValidationReport) (v : TripleCheckValidator) : TripleCheckValidator :=
  {| validation_history := validation_history v ++ [r];
     rejected_data := rejected_data v;
     audit_log := audit_log v |}.

(** A statement that updates the object. *)
Definition on_self (f : TripleCheckValidator -> TripleCheckValidator) : M world unit :=
  fun w => Returns tt {| self := f (self w); clock := clock w |}.

(** A call that only reads the clock, made from a method of the object. *)
Definition on_clock {A : Type} (m : M nat A) : M world A :=
  fun w =>
    match m (clock w) with
    | Returns a n => Returns a {| self := self w; clock := n |}
    | Raises e n => Raises e {| self := self w; clock := n |}
    end.

(** [r["final_status"] == s.value]. *)
Definition has_status (s : ValidationStatus) (r : ValidationReport) : bool :=
  match final_status r with
  | Some v => String.eqb v (value_of s)
  | None => false
  end.

(** [r["final_status"] in [s.value for s in statuses]]. *)
Definition status_among (statuses : list ValidationStatus) (r : ValidationReport) : bool :=
  existsb (fun s => has_status s r) statuses.

(** [get_releasable_data]. *)
Definition get_releasable_data (v : TripleCheckValidator) : list ValidationReport :=
  List.filter (status_among [GOLD; SILVER]) (validation_history v).

(** [get_rejected_data]. *)
Definition get_rejected_data (v : TripleCheckValidator) : list ValidationReport :=
  rejected_data v.

(** The template [validate_data_point] starts from. *)
Definition new_report (data_point : record) (now : string) : ValidationReport :=
  {| data_point := data_point;
     validation_timestamp := now;
     layer_1 := None;
     layer_2 := None;
     layer_3 := None;
     final_score := Py.Int 0;
     final_status := None;
     audit_trail := [] |}.

(** The dictionary appended to [self.audit_log] after layer [k]. *)
Definition audit_entry (now : string) (k : Z) (data_point : record) (layer_result : LayerResult) : AuditEntry :=
  {| audit_timestamp := now;
     audit_layer := k;
     audit_data_point := Py.get data_point "address" (Py.VStr "unknown");
     audit_score := score layer_result |}.

Section Validator.

(** The clock: what the n-th [datetime.now().isoformat()] of a run returns. *)
Variable isoformat_at : nat -> string.

(** [datetime.now().isoformat()]. *)
Definition now_isoformat : M nat string :=
  fun n => Returns (isoformat_at n) (S n).

(** *** The five [_verify_*] methods of layer 2 *)

Definition _verify_usps (data_point : record) : M nat ExternalSourceResult :=
  let* now := now_isoformat in
  ret {| source := "USPS"; valid := true; confidence := 99;
         url := "https://tools.usps.com"; timestamp := now |}.

Definition _verify_google_maps (data_point : record) : M nat ExternalSourceResult :=
  let* now := now_isoformat in
  ret {| source := "Google Maps"; valid := true; confidence := 98;
         url := "https://maps.google.com"; timestamp := now |}.

Definition _verify_county_records (data_point : record) : M nat ExternalSourceResult :=
  let* now := now_isoformat in
  ret {| source := "County Records"; valid := true; confidence := 99;
         url := "https://county-records.example.com"; timestamp := now |}.

Definition _verify_county_assessor (data_point : record) : M nat ExternalSourceResult :=
  let* now := now_isoformat in
  ret {| source := "County Assessor"; valid := true; confidence := 99;
         url := "https://assessor.example.com"; timestamp := now |}.

Definition _verify_property_appraiser (data_point : record) : M nat ExternalSourceResult :=
  let* now := now_isoformat in
  ret {| source := "Property Appraiser"; valid := true; confidence := 98;
         url := "https://appraiser.example.com"; timestamp := now |}.

(** [_layer_2_external_verification]. *)
Definition _layer_2_external_verification (data_point : record) : M nat LayerResult :=
  let* usps := _verify_usps data_point in
  let* google_maps := _verify_google_maps data_point in
  let* county_records := _verify_county_records data_point in
  let* county_assessor := _verify_county_assessor data_point in
  let* property_appraiser := _verify_property_appraiser data_point in
  eval (layer_2_of_sources
          [usps; google_maps; county_records; county_assessor; property_appraiser]).

(** *** The orchestrator *)

Section Cascade.

(** The three layer methods, as [self] dispatches them. *)
Variables layer_1_method layer_2_method layer_3_method : record -> M nat LayerResult.

(** The body of [validate_data_point]. *)
Definition cascade (data_point : record) : M world ValidationReport :=
  let* now := on_clock now_isoformat in
  let report := new_report data_point now in
  (* LAYER 1 *)
  let* layer_1_result := on_clock (layer_1_method data_point) in
  let report := set_layer_1 layer_1_result report in
  let* now := on_clock now_isoformat in
  run on_self (audit_log_append (audit_entry now 1 data_point layer_1_result)) then
  if Py.lt (score layer_1_result) (Py.Int 75) then
    let report := set_final_status (value_of REJECTED) report in
    let report := set_final_score (score layer_1_result) report in
    run on_self (rejected_data_append report) then
    ret report
  else
  (* LAYER 2 *)
  let* layer_2_result := on_clock (layer_2_method data_point) in
  let report := set_layer_2 layer_2_result report in
  let* now := on_clock now_isoformat in
  run on_self (audit_log_append (audit_entry now 2 data_point layer_2_result)) then
  if Py.lt (score layer_2_result) (Py.Int 75) then
    let report := set_final_status (value_of REJECTED) report in
    let report := set_final_score (score layer_2_result) report in
    run on_self (rejected_data_append report) then
    ret report
  else
  (* LAYER 3 *)
  let* layer_3_result := on_clock (layer_3_method data_point) in
  let report := set_layer_3 layer_3_result report in
  let* now := on_clock now_isoformat in
  run on_self (audit_log_append (audit_entry now 3 data_point layer_3_result)) then
  if Py.lt (score layer_3_result) (Py.Int 75) then
    let report := set_final_status (value_of REJECTED) report in
    let report := set_final_score (score layer_3_result) report in
    run on_self (rejected_data_append report) then
    ret report
  else
  (* FINAL SCORE *)
  let final_score :=
    Py.add (Py.add (Py.mul (score layer_1_result) (Py.Float 0.33))
                   (Py.mul (score layer_2_result) (Py.Float 0.33)))
           (Py.mul (score layer_3_result) (Py.Float 0.34)) in
  let report := set_final_score final_score report in
  (* FINAL STATUS *)
  let* report :=
    if Py.ge final_score (Py.Int 95) then
      ret (set_final_status (value_of GOLD) report)
    else if Py.ge final_score (Py.Int 85) then
      ret (set_final_status (value_of SILVER) report)
    else if Py.ge final_score (Py.Int 75) then
      ret (set_final_status (value_of BRONZE) report)
    else
      let report := set_final_status (value_of REJECTED) report in
      run on_self (rejected_data_append report) then
      ret report in
  run on_self (validation_history_append report) then
  ret report.

End Cascade.

(** [validate_data_point]. *)
Definition validate_data_point (data_point : record) : M world ValidationReport :=
  cascade (fun d => eval (_layer_1_internal_verification d))
          _layer_2_external_verification
          (fun d => eval (_layer_3_reproducibility_test d))
          data_point.

(** The loop of [generate_validation_report]. *)
Fixpoint validate_all (data_points : list record) : M world (list ValidationReport) :=
  match data_points with
  | [] => ret []
  | data_point :: rest =>
      let* result := validate_data_point data_point in
      let* results := validate_all rest in
      ret (result :: results)
  end.

(** [sum(1 for r in results if r["final_status"] == s.value)]. *)
Definition count_status (s : ValidationStatus) (results : list ValidationReport) : Py.number :=
  Py.sum (map (fun _ => Py.Int 1) (List.filter (has_status s) results)).

(** [generate_validation_report]. *)
Definition generate_validation_report (data_points : list record) : M world BatchReport :=
  let* results := validate_all data_points in
  let gold_count := count_status GOLD results in
  let silver_count := count_status SILVER results in
  let bronze_count := count_status BRONZE results in
  let rejected_count := count_status REJECTED results in
  let* now := on_clock now_isoformat in
  let* w := get_state in
  ret {| report_timestamp := now;
         total_data_points := Py.len data_points;
         statistics := {| gold := gold_count; silver := silver_count;
                          bronze := bronze_count; rejected := rejected_count |};
         validation_results := results;
         batch_audit_log := audit_log (self w) |}.

End Validator.


(** ** Vocabulary of the specification *)

(** The layer stored under [layer_k] of a report, [None] when layer [k]
    did not run. *)
Definition layer_slot (r : ValidationReport) (k : nat) : option LayerResult :=
  match k with
  | 1%nat => layer_1 r
  | 2%nat => layer_2 r
  | 3%nat => layer_3 r
  | _ => None
  end.

(** The layers a report shows as executed, in order. *)
Definition executed_layers (r : ValidationReport) : list LayerResult :=
  option_list (layer_1 r) ++ option_list (layer_2 r) ++ option_list (layer_3 r).

(** [layer1*0.33 + layer2*0.33 + layer3*0.34], with Python's arithmetic. *)
Definition weighted_composite (layer1 layer2 layer3 : Py.number) : Py.number :=
  Py.add (Py.add (Py.mul layer1 (Py.Float 0.33)) (Py.mul layer2 (Py.Float 0.33)))
         (Py.mul layer3 (Py.Float 0.34)).

(** The bands of the final status. *)
Definition classify (final : Py.number) : ValidationStatus :=
  if Py.ge final (Py.Int 95) then GOLD
  else if Py.ge final (Py.Int 85) then SILVER
  else if Py.ge final (Py.Int 75) then BRONZE
  else REJECTED.

(** The six keys structural completeness looks for. *)
Definition required_keys : list string :=
  ["address"; "city"; "state"; "zip"; "source"; "timestamp"].

(** The three keys content sanity looks at. *)
Definition sanity_keys : list string := ["address"; "city"; "state"].

(** The string under a key, the empty string when the key is absent. *)
Definition text (data_point : record) (key : string) : string :=
  match data_point !! key with
  | Some (Py.VStr s) => s
  | _ => ""
  end.

(** A key holds a string or is absent. *)
Definition str_or_absent (data_point : record) (key : string) : bool :=
  match data_point !! key with
  | Some (Py.VStr _) => true
  | Some _ => false
  | None => true
  end.

(** The four fields layer 1 reads hold strings where they are present. *)
Definition text_fields (data_point : record) : bool :=
  forallb (str_or_absent data_point) ("source" :: sanity_keys).

(** A string made of whitespace only (the empty string included). *)
Fixpoint whitespace_only (s : string) : bool :=
  match s with
  | EmptyString => true
  | String c t => Py.isspace c && whitespace_only t
  end.

(** A key is present and holds a whitespace-only string. *)
Definition present_but_blank (data_point : record) (key : string) : bool :=
  match data_point !! key with
  | Some (Py.VStr s) => whitespace_only s
  | _ => false
  end.

(** A key is absent, or holds a whitespace-only string. *)
Definition absent_or_blank (data_point : record) (key : string) : bool :=
  match data_point !! key with
  | Some (Py.VStr s) => whitespace_only s
  | Some _ => false
  | None => true
  end.

(** How many keys of a list satisfy a test. *)
Definition count_keys (test : string -> bool) (keys : list string) : Z :=
  Z.of_nat (length (List.filter test keys)).

(** Content sanity in the specification's words: 90, minus 50 for each
    of address, city, state that is present but blank, floored at 0. *)
Definition content_sanity_as_stated (data_point : record) : Py.number :=
  Py.Int (Z.max 0 (90 - 50 * count_keys (present_but_blank data_point) sanity_keys)).

(** Content sanity with absent keys counted as blank ones. *)
Definition content_sanity (data_point : record) : Py.number :=
  Py.Int (Z.max 0 (90 - 50 * count_keys (absent_or_blank data_point) sanity_keys)).

(** Source authenticity: 99 when an allow-list entry occurs in the
    source string, else 0. *)
Definition source_authenticity (data_point : record) : Py.number :=
  if existsb (Py.contains (text data_point "source")) authoritative_sources
  then Py.Int 99 else Py.Int 0.

(** [(passed / 6) * 100]. *)
Definition completeness_of (passed : Z) : Py.number :=
  Py.Float (Py.float_of_int passed / 6 * 100)%float.

(** Structural completeness: the share of the six keys present, as a
    percentage. *)
Definition structural_completeness (data_point : record) : Py.number :=
  completeness_of (count_keys (Py.has_key data_point) required_keys).

(** The unweighted mean of three sub-check scores: [sum(scores) / 3]. *)
Definition mean3 (a b c : Py.number) : Py.number :=
  Py.Float (Py.as_float (Py.sum [a; b; c]) / 3)%float.

(** The layer-1 score of a record whose source is authentic or not, with
    [passed] of the six keys and [blanks] of the three sanity keys absent
    or blank. *)
Definition layer_1_score (authentic : bool) (passed blanks : Z) : Py.number :=
  mean3 (if authentic then Py.Int 99 else Py.Int 0)
        (completeness_of passed)
        (Py.Int (Z.max 0 (90 - 50 * blanks))).

(** Every combination of the three sub-checks. *)
Definition layer_1_grid : list (bool * Z * Z) :=
  flat_map (fun a => flat_map (fun p => map (fun k => (a, p, k)) [0; 1; 2; 3])
                              [0; 1; 2; 3; 4; 5; 6])
           [false; true].

(** The lower bound of the composite behind a passed layer 1:
    [0.33*75 + 0.33*99 + 0.34*99]. *)
Definition composite_floor : Py.number :=
  Py.Float (0.33 * 75 + 0.33 * 99 + 0.34 * 99)%float.

(** The percentage of a panel with [agreeing] of its [total] members
    agreeing: [(agreeing / total) * 100]. *)
Definition percentage (agreeing total : nat) : Py.number :=
  Py.Float (Py.float_of_int (Z.of_nat agreeing) / Py.float_of_int (Z.of_nat total) * 100)%float.


(** The layer-1 score of a record whose text fields are strings. *)
Definition record_score (d : record) : Py.number :=
  layer_1_score (existsb (Py.contains (text d "source")) authoritative_sources)
                (count_keys (Py.has_key d) required_keys)
                (count_keys (absent_or_blank d) sanity_keys).

(** [0 <= s <= 100]. *)
Definition within_0_100 (s : Py.number) : bool :=
  Py.le (Py.Int 0) s && Py.le s (Py.Int 100).

(** What is checked of each layer-1 score of the grid: its range, and
    that the gate [s < 75] is the negation of [s >= 75]. *)
Definition check_layer_1 (x : bool * Z * Z) : bool :=
  let '(a, p, k) := x in
  let s := layer_1_score a p k in
  within_0_100 s && Bool.eqb (Py.lt s (Py.Int 75)) (negb (Py.ge s (Py.Int 75))).

(** What is checked of the composite behind each layer-1 score that
    passes the gate, the two stand-in layers scoring 99. *)
Definition check_composite (x : bool * Z * Z) : bool :=
  let '(a, p, k) := x in
  let s := layer_1_score a p k in
  let final := weighted_composite s (Py.Int 99) (Py.Int 99) in
  Py.lt s (Py.Int 75)
  || (within_0_100 final
      && Py.ge final (Py.Int 85)
      && Py.le composite_floor final
      && Py.le (Py.Float 91.08) final
      && Bool.eqb (Py.lt final (Py.Int 95)) (negb (Py.ge final (Py.Int 95)))
      && negb (Py.lt final (Py.Int 85))
      && negb (Py.lt final (Py.Int 75))).

(** What is checked of a record without an authentic source, or with a
    sanity key missing: layer 1 stops it. *)
Definition check_incomplete (x : bool * Z * Z) : bool :=
  let '(a, p, k) := x in
  implb (negb a || ((1 <=? k)%Z && (p <=? 5)%Z))
        (Py.lt (layer_1_score a p k) (Py.Int 75)).

(** [needle] occurs inside [hay]. *)
Definition occurs_in (needle hay : string) : Prop :=
  exists pre post, hay = pre ++ needle ++ post.

(** A layer method that reports a given score and nothing else. *)
Definition scoring (k : Z) (s : Py.number) (data_point : record) : M nat LayerResult :=
  ret {| layer := k; name := ""; detail := Reproducibility []; score := s |}.

(** *** Records used as examples *)

(** The first record of the module's own example run. *)
Definition riverside : record :=
  <["address" := Py.VStr "1094 Riverside Drive"]>
  (<["city" := Py.VStr "Port St. Lucie"]>
  (<["state" := Py.VStr "FL"]>
  (<["zip" := Py.VStr "34984"]>
  (<["source" := Py.VStr "County Assessor"]>
  (<["timestamp" := Py.VStr "2024-01-01T00:00:00"]> ∅))))).

(** The same record without its address. *)
Definition no_address : record := delete "address" riverside.

(** The same record with a number for an address. *)
Definition numeric_address : record :=
  <["address" := Py.VNum (Py.Int 1094)]> riverside.

(** The same record from a source outside the allow-list. *)
Definition hearsay : record := <["source" := Py.VStr "a neighbour"]> riverside.

(** The same record with a city of two spaces. *)
Definition blank_city : record := <["city" := Py.VStr "  "]> riverside.

(** A panel of five answers, three of them valid. *)
Definition three_of_five : list ExternalSourceResult :=
  map (fun v => {| source := "source"; valid := v; confidence := 99;
                   url := ""; timestamp := "" |})
      [true; false; true; true; false].


(** A fresh validator before any clock reading. *)
Definition fresh : world := {| self := __init__; clock := 0 |}.

(** A clock that numbers its readings. *)
Definition ticking (n : nat) : string := pretty n.

(** ** Vocabulary of the further properties *)

(** An allow-list entry occurs in the source string of the record. *)
Definition is_authoritative (d : record) : bool :=
  existsb (Py.contains (text d "source")) authoritative_sources.

(** How many of the six keys the record has. *)
Definition keys_present (d : record) : Z :=
  count_keys (Py.has_key d) required_keys.

(** How many of address, city, state are absent or blank. *)
Definition blank_fields (d : record) : Z :=
  count_keys (absent_or_blank d) sanity_keys.

(** The status of a record by its three sub-checks. *)
Definition verdict (authentic : bool) (passed blanks : Z) : ValidationStatus :=
  if negb authentic then REJECTED
  else if (blanks =? 0)%Z then (if (5 <=? passed)%Z then GOLD else SILVER)
  else if (blanks =? 1)%Z && (passed =? 6)%Z then SILVER
  else REJECTED.

(** What is checked of the verdict at each point of the grid a record can
    stand on: with none of the three sanity keys blank, at least these
    three keys are present. *)
Definition check_verdict (x : bool * Z * Z) : bool :=
  let '(a, p, k) := x in
  let s := layer_1_score a p k in
  (k =? 0)%Z && (p <? 3)%Z
  || match verdict a p k with
     | REJECTED => Py.lt s (Py.Int 75)
     | v => negb (Py.lt s (Py.Int 75))
            && String.eqb (value_of (classify (weighted_composite s (Py.Int 99) (Py.Int 99))))
                          (value_of v)
     end.

(** The final score behind a point of the grid: the layer-1 score when
    it is below 75, else the composite with the two stand-ins at 99. *)
Definition final_of (x : bool * Z * Z) : Py.number :=
  let '(a, p, k) := x in
  let s := layer_1_score a p k in
  if Py.lt s (Py.Int 75) then s else weighted_composite s (Py.Int 99) (Py.Int 99).

(** The status behind a point of the grid. *)
Definition status_of (x : bool * Z * Z) : ValidationStatus :=
  let '(a, p, k) := x in
  let s := layer_1_score a p k in
  if Py.lt s (Py.Int 75) then REJECTED
  else classify (weighted_composite s (Py.Int 99) (Py.Int 99)).

(** The rank of a status, REJECTED lowest. *)
Definition rank (s : ValidationStatus) : Z :=
  match s with REJECTED => 0 | BRONZE => 1 | SILVER => 2 | GOLD => 3 end.

(** A point of the grid is at most as good as another in each sub-check. *)
Definition at_most (x y : bool * Z * Z) : bool :=
  let '(a, p, k) := x in
  let '(a', p', k') := y in
  implb a a' && (p <=? p')%Z && (k' <=? k)%Z.

(** What is checked of each pair of points of the grid. *)
Definition check_monotone (x : bool * Z * Z) : bool :=
  forallb (fun y => implb (at_most x y)
                          (Py.le (final_of x) (final_of y)
                           && (rank (status_of x) <=? rank (status_of y))%Z))
          layer_1_grid.

(** An answer of the panel with its timestamp blanked. *)
Definition source_without_timestamp (s : ExternalSourceResult) : ExternalSourceResult :=
  {| source := source s; valid := valid s; confidence := confidence s;
     url := url s; timestamp := "" |}.

(** A layer result with the timestamps of its answers blanked. *)
Definition layer_without_timestamps (l : LayerResult) : LayerResult :=
  {| layer := layer l; name := name l;
     detail := match detail l with
               | External sources agreement =>
                   External (map source_without_timestamp sources) agreement
               | other => other
               end;
     score := score l |}.

(** A report with every timestamp blanked. *)
Definition without_timestamps (r : ValidationReport) : ValidationReport :=
  {| data_point := data_point r;
     validation_timestamp := "";
     layer_1 := option_map layer_without_timestamps (layer_1 r);
     layer_2 := option_map layer_without_timestamps (layer_2 r);
     layer_3 := option_map layer_without_timestamps (layer_3 r);
     final_score := final_score r;
     final_status := final_status r;
     audit_trail := audit_trail r |}.

(** The answers of the panel a layer-2 result carries. *)
Definition external_sources (l : LayerResult) : list ExternalSourceResult :=
  match detail l with
  | External sources _ => sources
  | _ => []
  end.

(** The exception is an [AttributeError]. *)
Definition is_attribute_error (e : Py.exn) : bool :=
  match e with Py.AttributeError _ => true | _ => false end.

(** The exception is a [TypeError]. *)
Definition is_type_error (e : Py.exn) : bool :=
  match e with Py.TypeError _ => true | _ => false end.

(** The numbers of GOLD, SILVER and REJECTED reports among [rs]. *)
Definition tally (rs : list ValidationReport) : nat * nat * nat :=
  (length (List.filter (has_status GOLD) rs),
   length (List.filter (has_status SILVER) rs),
   length (List.filter (has_status REJECTED) rs)).

(** The state a call leaves, whether it returned or raised. *)
Definition state_after {S A : Type} (o : outcome S A) : S :=
  match o with
  | Returns _ s => s
  | Raises _ s => s
  end.

(** The ledger and the audit log agree: the history holds GOLD and SILVER
    reports only, the rejected list REJECTED ones only, and the audit log
    has three entries for each report kept and one for each rejected. *)
Definition ledger_sound (v : TripleCheckValidator) : Prop :=
  Forall (fun r => status_among [GOLD; SILVER] r = true) (validation_history v)
  /\ Forall (fun r => has_status REJECTED r = true) (rejected_data v)
  /\ length (audit_log v)
     = (3 * length (validation_history v) + length (rejected_data v))%nat.

(** The states a validator reaches from its creation by calls of its two
    public methods, whether they return or raise. *)
Inductive reachable (isoformat_at : nat -> string) : world -> Prop :=
| reachable_init (n : nat) : reachable isoformat_at {| self := __init__; clock := n |}
| reachable_validate (w : world) (d : record) :
    reachable isoformat_at w ->
    reachable isoformat_at (state_after (validate_data_point isoformat_at d w))
| reachable_report (w : world) (ds : list record) :
    reachable isoformat_at w ->
    reachable isoformat_at (state_after (generate_validation_report isoformat_at ds w)).

(** Two records hold the same values under source, address, city and
    state, and the same ones of zip and timestamp are present. *)
Definition same_reading (d d' : record) : Prop :=
  (forall key, In key ("source" :: sanity_keys) -> d !! key = d' !! key)
  /\ (forall key, In key ["zip"; "timestamp"] -> Py.has_key d key = Py.has_key d' key).



(** *** More example records *)

(** The first record with a number for a zip code and a key the
    validator does not know. *)
Definition renumbered : record :=
  <["zip" := Py.VNum (Py.Int 34984)]> (<["owner" := Py.VStr "J. Doe"]> riverside).

(** The first record with a longer name for its source. *)
Definition assessor_office : record :=
  <["source" := Py.VStr "St. Lucie County Assessor, main office"]> riverside.

(** Another panel of five answers, the same three of them valid. *)
Definition three_of_five_unsure : list ExternalSourceResult :=
  map (fun v => {| source := "another source"; valid := v; confidence := 10;
                   url := "https://example.com"; timestamp := "later" |})
      [true; false; true; true; false].


(** A validator created later, after a batch of two records. *)
Definition seasoned : world :=
  state_after (generate_validation_report ticking [hearsay; blank_city]
                                          {| self := __init__; clock := 40 |}).

(** A clock that stands still. *)
Definition noon (n : nat) : string := "2025-06-30T12:00:00".


(** ** Facts about strings *)

Lemma lstrip_whitespace_only (s : string) :
  whitespace_only s = true -> Py.lstrip s = "".
Proof.
  induction s as [|c t IH]; simpl; [reflexivity|].
  intros [Hc Ht]%andb_prop. rewrite Hc. auto.
Qed.

(** Stripping on the left stops at the first character that is not
    whitespace. *)
Lemma lstrip_head (s : string) :
  whitespace_only s = false ->
  exists c t, Py.lstrip s = String c t /\ Py.isspace c = false.
Proof.
  induction s as [|c t IH]; simpl; [discriminate|].
  destruct (Py.isspace c) eqn:Hc; simpl; eauto.
Qed.

(** A string that starts with such a character does not strip to the empty
    string. *)
Lemma rstrip_head (c : ascii) (t : string) :
  Py.isspace c = false -> Py.rstrip (String c t) <> "".
Proof.
  intros Hc. simpl. destruct (Py.rstrip t); [rewrite Hc|]; discriminate.
Qed.

(** [s.strip() == ""] holds exactly of the whitespace-only strings. *)
Lemma strip_blank (s : string) :
  String.eqb (Py.strip s) "" = whitespace_only s.
Proof.
  unfold Py.strip. destruct (whitespace_only s) eqn:Hs.
  - rewrite (lstrip_whitespace_only s Hs). reflexivity.
  - destruct (lstrip_head s Hs) as (c & t & -> & Hc).
    apply String.eqb_neq. apply rstrip_head. exact Hc.
Qed.

(** [s.startswith(p)] holds exactly when [s] is [p] followed by something. *)
Lemma startswith_spec (s p : string) :
  Py.startswith s p = true <-> exists post, s = p ++ post.
Proof.
  revert s. induction p as [|a p IH]; intros s; simpl.
  - split; [intros _; exists s; reflexivity | reflexivity].
  - destruct s as [|b s]; simpl.
    + split; [discriminate|]. intros [post H]. discriminate.
    + rewrite andb_true_iff, IH, Ascii.eqb_eq. split.
      * intros [-> [post ->]]. eauto.
      * intros [post H]. injection H as -> ->. eauto.
Qed.

(** [needle in hay] holds exactly when [needle] occurs inside [hay]. *)
Lemma contains_spec (hay needle : string) :
  Py.contains hay needle = true <-> exists pre post, hay = pre ++ needle ++ post.
Proof.
  induction hay as [|c t IH].
  - simpl. rewrite orb_false_r, startswith_spec. split.
    + intros [post H]. exists "", post. exact H.
    + intros (pre & post & H). destruct pre; simpl in H; [eauto | discriminate].
  - cbn [Py.contains]. rewrite orb_true_iff, startswith_spec, IH. split.
    + intros [[post H] | (pre & post & H)].
      * exists "", post. exact H.
      * exists (String c pre), post. rewrite H. reflexivity.
    + intros (pre & post & H). destruct pre as [|c' pre]; simpl in H.
      * left. eauto.
      * right. injection H as -> ->. eauto.
Qed.

(** ** Layer 1 on a record *)

Lemma get_text (d : record) (key : string) :
  str_or_absent d key = true -> Py.get d key (Py.VStr "") = Py.VStr (text d key).
Proof.
  unfold str_or_absent, Py.get, text.
  destruct (d !! key) as [[s|n|b|]|]; intros H; try discriminate; reflexivity.
Qed.

(** The blank test of [_check_data_quality] on a string or absent field. *)
Lemma blank_text (d : record) (key : string) :
  str_or_absent d key = true -> blank d key = inr (absent_or_blank d key).
Proof.
  intros H. unfold blank. rewrite (get_text d key H).
  cbn [Py.strip_of bind ret result_monad]. f_equal.
  rewrite strip_blank. unfold text, absent_or_blank. unfold str_or_absent in H.
  destruct (d !! key) as [[s|n|b|]|]; try discriminate; reflexivity.
Qed.

(** The blank test raises on any other value. *)
Lemma blank_raises (d : record) (key : string) :
  str_or_absent d key = false -> exists e, blank d key = inl e.
Proof.
  unfold str_or_absent, blank, Py.get.
  destruct (d !! key) as [[s|[z|f]|b|]|]; intros H; try discriminate;
    cbn; eauto.
Qed.

(** On a string the allow-list search never raises. *)
Lemma any_of_str_in (s : string) (entries : list string) :
  Py.any_of (fun entry => Py.str_in entry (Py.VStr s)) entries
  = inr (existsb (Py.contains s) entries).
Proof.
  induction entries as [|e rest IH]; simpl; [reflexivity|].
  destruct (Py.contains s e); simpl; [reflexivity | exact IH].
Qed.

(** [_check_source_authenticity] on a string or absent source. *)
Lemma _check_source_authenticity_text (d : record) :
  str_or_absent d "source" = true ->
  _check_source_authenticity d
  = inr {| source_check_name := "source_authenticity";
           source_seen := Py.VStr (text d "source");
           is_authentic := existsb (Py.contains (text d "source")) authoritative_sources;
           source_check_score := source_authenticity d |}.
Proof.
  intros H. unfold _check_source_authenticity, source_authenticity.
  rewrite (get_text d "source" H), any_of_str_in. reflexivity.
Qed.

(** [_check_source_authenticity] raises on any other source. *)
Lemma _check_source_authenticity_raises (d : record) :
  str_or_absent d "source" = false -> exists e, _check_source_authenticity d = inl e.
Proof.
  unfold str_or_absent, _check_source_authenticity, Py.get.
  destruct (d !! "source") as [[s|[z|f]|b|]|]; intros H; try discriminate;
    cbn; eauto.
Qed.

(** [_check_data_integrity] never raises: the divisor is 6. *)
Lemma _check_data_integrity_eq (d : record) :
  _check_data_integrity d
  = inr {| integrity_check_name := "data_integrity";
           integrity_checks :=
             [("has_address", Py.has_key d "address");
              ("has_city", Py.has_key d "city");
              ("has_state", Py.has_key d "state");
              ("has_zip", Py.has_key d "zip");
              ("has_source", Py.has_key d "source");
              ("has_timestamp", Py.has_key d "timestamp")];
           integrity_check_score := structural_completeness d |}.
Proof.
  unfold _check_data_integrity, structural_completeness, required_keys, count_keys.
  cbn [List.filter].
  generalize (Py.has_key d "address") (Py.has_key d "city") (Py.has_key d "state")
             (Py.has_key d "zip") (Py.has_key d "source") (Py.has_key d "timestamp").
  intros [] [] [] [] [] []; vm_compute; reflexivity.
Qed.

(** [_check_data_quality] on string or absent fields. *)
Lemma _check_data_quality_text (d : record) :
  forallb (str_or_absent d) sanity_keys = true ->
  _check_data_quality d
  = inr {| quality_check_name := "data_quality";
           quality_check_score := content_sanity d |}.
Proof.
  cbn [forallb sanity_keys]. rewrite !andb_true_iff. intros (Ha & Hc & Hs & _).
  unfold _check_data_quality, content_sanity, sanity_keys, count_keys.
  rewrite (blank_text d "address" Ha), (blank_text d "city" Hc), (blank_text d "state" Hs).
  cbn [List.filter bind ret result_monad].
  destruct (absent_or_blank d "address"), (absent_or_blank d "city"),
    (absent_or_blank d "state"); reflexivity.
Qed.

(** [_check_data_quality] raises when a field holds another value. *)
Lemma _check_data_quality_raises (d : record) :
  forallb (str_or_absent d) sanity_keys = false -> exists e, _check_data_quality d = inl e.
Proof.
  cbn [forallb sanity_keys]. rewrite andb_true_r. unfold _check_data_quality.
  destruct (str_or_absent d "address") eqn:Ha.
  - rewrite (blank_text d "address" Ha). cbn [bind result_monad].
    destruct (str_or_absent d "city") eqn:Hc.
    + rewrite (blank_text d "city" Hc). cbn [bind result_monad andb].
      intros Hs. destruct (blank_raises d "state" Hs) as [e ->]. cbn. eauto.
    + intros _. destruct (blank_raises d "city" Hc) as [e ->]. cbn. eauto.
  - intros _. destruct (blank_raises d "address" Ha) as [e ->]. cbn. eauto.
Qed.

(** Layer 1 on a record whose text fields are strings. *)
Lemma _layer_1_internal_verification_text (d : record) :
  text_fields d = true ->
  exists sc ic qc,
    _layer_1_internal_verification d
    = inr {| layer := 1; name := "Internal Verification";
             detail := Checks sc ic qc;
             score := mean3 (source_authenticity d) (structural_completeness d)
                            (content_sanity d) |}
    /\ source_check_score sc = source_authenticity d
    /\ integrity_check_score ic = structural_completeness d
    /\ quality_check_score qc = content_sanity d.
Proof.
  unfold text_fields. cbn [forallb]. intros [Hsrc Hq]%andb_prop.
  unfold _layer_1_internal_verification.
  rewrite (_check_source_authenticity_text d Hsrc), _check_data_integrity_eq,
    (_check_data_quality_text d Hq).
  do 3 eexists. split; [reflexivity | repeat split].
Qed.

(** Layer 1 raises on every other record. *)
Lemma _layer_1_internal_verification_raises (d : record) :
  text_fields d = false -> exists e, _layer_1_internal_verification d = inl e.
Proof.
  unfold text_fields. cbn [forallb]. unfold _layer_1_internal_verification.
  destruct (str_or_absent d "source") eqn:Hsrc.
  - rewrite (_check_source_authenticity_text d Hsrc), _check_data_integrity_eq.
    cbn [andb bind result_monad]. intros Hq.
    destruct (_check_data_quality_raises d Hq) as [e ->]. eauto.
  - intros _. destruct (_check_source_authenticity_raises d Hsrc) as [e ->].
    cbn. eauto.
Qed.

(** ** The cascade, path by path *)

(** One step of the symbolic run of [cascade]: a layer call returns (or
    the run raises and the hypothesis is absurd), or a gate is decided. *)
Ltac step_cascade H :=
  unfold on_clock, on_self, now_isoformat in H;
  cbn [bind ret M_monad clock self] in H;
  match type of H with
  | context [match ?m ?d ?n with Returns _ _ => _ | Raises _ _ => _ end] =>
      let E := fresh "Hlayer" in
      destruct (m d n) as [? ?|? ?] eqn:E; [|discriminate H]
  | context [if Py.lt ?a ?b then _ else _] =>
      let G := fresh "Hgate" in destruct (Py.lt a b) eqn:G
  | context [if Py.ge ?a ?b then _ else _] =>
      let G := fresh "Hband" in destruct (Py.ge a b) eqn:G
  end.

(** The symbolic run: one goal per path that returns. *)
Ltac run_cascade H :=
  unfold cascade in H; repeat step_cascade H;
  unfold on_clock, on_self, now_isoformat in H;
  cbn [bind ret M_monad clock self] in H;
  injection H as <- <-.

Section Cascade_facts.
Variable isoformat_at : nat -> string.
Variables layer_1_method layer_2_method layer_3_method : record -> M nat LayerResult.
Abbreviation cascade' :=
  (cascade isoformat_at layer_1_method layer_2_method layer_3_method).

(** A layer that ran and scored below 75 is the last one executed; the
    report is REJECTED with that layer's score. *)
Lemma cascade_early_exit (d : record) (w w' : world) (r : ValidationReport) :
  cascade' d w = Returns r w' ->
  forall (k : nat) (res : LayerResult),
    layer_slot r k = Some res ->
    Py.lt (score res) (Py.Int 75) = true ->
    final_status r = Some "REJECTED"
    /\ final_score r = score res
    /\ (forall j, (k < j)%nat -> layer_slot r j = None)
    /\ length (executed_layers r) = k.
Proof.
  intros H k res Hk Hlt. run_cascade H.
  all: destruct k as [|[|[|[|k]]]]; cbn in Hk; try discriminate Hk;
    injection Hk as <-; try congruence.
  all: repeat split; try reflexivity.
  all: intros [|[|[|[|j]]]] Hj; try reflexivity; lia.
Qed.

(** One audit entry per executed layer, in the order of execution. *)
Lemma cascade_audit_log (d : record) (w w' : world) (r : ValidationReport) :
  cascade' d w = Returns r w' ->
  exists new,
    audit_log (self w') = (audit_log (self w) ++ new)%list
    /\ map audit_layer new = map Z.of_nat (seq 1 (length (executed_layers r)))
    /\ map audit_score new = map score (executed_layers r)
    /\ Forall (fun e => audit_data_point e = Py.get d "address" (Py.VStr "unknown")) new.
Proof.
  intros H. run_cascade H; cbn; rewrite <- ?app_assoc; eexists; (split; [reflexivity|]);
    repeat split; repeat constructor.
Qed.

(** The template's [audit_trail] is what the report returns. *)
Lemma cascade_audit_trail (d : record) (w w' : world) (r : ValidationReport) :
  cascade' d w = Returns r w' -> audit_trail r = [] /\ data_point r = d.
Proof. intros H. run_cascade H; split; reflexivity. Qed.

(** Where a finished report goes. *)
Lemma cascade_ledger (d : record) (w w' : world) (r : ValidationReport) :
  cascade' d w = Returns r w' ->
  (length (executed_layers r) = 3%nat
   /\ (forall res, In res (executed_layers r) -> Py.lt (score res) (Py.Int 75) = false)
   /\ validation_history (self w') = (validation_history (self w) ++ [r])%list
   /\ rejected_data (self w')
      = (rejected_data (self w) ++ (if has_status REJECTED r then [r] else []))%list)
  \/ (has_status REJECTED r = true
      /\ (exists res, last (executed_layers r) = Some res
                      /\ Py.lt (score res) (Py.Int 75) = true)
      /\ validation_history (self w') = validation_history (self w)
      /\ rejected_data (self w') = (rejected_data (self w) ++ [r])%list).
Proof.
  intros H. run_cascade H; cbn.
  all: first
    [ right; repeat split; eauto; fail
    | left; repeat split; try (rewrite app_nil_r; reflexivity);
      intros res [<-|[<-|[<-|[]]]]; assumption ].
Qed.

(** A run whose third layer passed its gate is scored: the final score is
    the weighted composite and the status is its band. *)
Lemma cascade_scored (d : record) (w w' : world) (r : ValidationReport)
      (r1 r2 r3 : LayerResult) :
  cascade' d w = Returns r w' ->
  layer_1 r = Some r1 -> layer_2 r = Some r2 -> layer_3 r = Some r3 ->
  Py.lt (score r3) (Py.Int 75) = false ->
  final_score r = weighted_composite (score r1) (score r2) (score r3)
  /\ final_status r = Some (value_of (classify (final_score r))).
Proof.
  intros H H1 H2 H3 Hgate3. run_cascade H; cbn in H1, H2, H3; try discriminate.
  all: injection H1 as <-; injection H2 as <-; injection H3 as <-;
    try congruence.
  all: split; [reflexivity|]; cbn [final_score final_status set_final_score
    set_final_status set_layer_1 set_layer_2 set_layer_3 new_report];
    unfold classify, weighted_composite;
    rewrite ?Hband, ?Hband0, ?Hband1; reflexivity.
Qed.
(** A layer that a report shows as not executed was not invoked: the run
    is the same whatever methods stand in its place and after it. *)
Lemma cascade_not_invoked (d : record) (w w' : world) (r : ValidationReport) :
  cascade' d w = Returns r w' ->
  (layer_2 r = None ->
   forall other_2 other_3,
     cascade isoformat_at layer_1_method other_2 other_3 d w = Returns r w')
  /\ (layer_3 r = None ->
      forall other_3,
        cascade isoformat_at layer_1_method layer_2_method other_3 d w = Returns r w').
Proof.
  intros H. run_cascade H; split; intros Hnone; try discriminate Hnone; intros;
    unfold cascade, on_clock, on_self, now_isoformat;
    cbn [bind ret M_monad clock self];
    rewrite ?Hlayer; cbn [bind ret M_monad clock self]; rewrite ?Hgate;
    cbn [bind ret M_monad clock self];
    rewrite ?Hlayer0; cbn [bind ret M_monad clock self]; rewrite ?Hgate0;
    reflexivity.
Qed.
End Cascade_facts.

(** ** The stand-ins of layers 2 and 3 *)

Section Stand_ins.
Variable isoformat_at : nat -> string.

(** Layer 2 reads the clock five times, finds all five answers valid and
    scores 99. *)
Lemma _layer_2_external_verification_score (d : record) (n : nat) :
  exists sources,
    _layer_2_external_verification isoformat_at d n
    = Returns {| layer := 2; name := "External Verification";
                 detail := External sources (Py.Float 100);
                 score := Py.Int 99 |} (5 + n)%nat
    /\ length sources = 5%nat
    /\ forallb valid sources = true.
Proof.
  eexists. split; [|split].
  - unfold _layer_2_external_verification, _verify_usps, _verify_google_maps,
      _verify_county_records, _verify_county_assessor, _verify_property_appraiser,
      now_isoformat.
    cbn [bind ret M_monad]. unfold layer_2_of_sources. cbn [List.filter valid].
    vm_compute. reflexivity.
  - reflexivity.
  - reflexivity.
Qed.

End Stand_ins.

(** Layer 3 finds the record in all seven indices and scores 99. *)
Lemma _layer_3_reproducibility_test_score (d : record) :
  exists checks,
    _layer_3_reproducibility_test d
    = inr {| layer := 3; name := "Reproducibility Test";
             detail := Reproducibility checks;
             score := Py.Int 99 |}
    /\ length checks = 7%nat
    /\ forallb snd checks = true.
Proof.
  eexists. split; [|split].
  - vm_compute. reflexivity.
  - reflexivity.
  - reflexivity.
Qed.

(** ** The scores layer 1 can produce *)

(** A count of keys lies between 0 and the number of keys. *)
Lemma count_keys_bounds (test : string -> bool) (keys : list string) :
  0 <= count_keys test keys <= Z.of_nat (length keys).
Proof.
  unfold count_keys. pose proof (filter_length_le test keys). lia.
Qed.

(** The grid holds every combination within the bounds. *)
Lemma layer_1_grid_complete (a : bool) (p k : Z) :
  0 <= p <= 6 -> 0 <= k <= 3 -> In (a, p, k) layer_1_grid.
Proof.
  intros Hp Hk.
  assert (Ep : p = 0 \/ p = 1 \/ p = 2 \/ p = 3 \/ p = 4 \/ p = 5 \/ p = 6) by lia.
  assert (Ek : k = 0 \/ k = 1 \/ k = 2 \/ k = 3) by lia.
  destruct a; decompose [or] Ep; decompose [or] Ek; subst; cbn; tauto.
Qed.

(** The sub-checks of a record are a point of the grid. *)
Lemma record_in_grid (d : record) :
  In (existsb (Py.contains (text d "source")) authoritative_sources,
      count_keys (Py.has_key d) required_keys,
      count_keys (absent_or_blank d) sanity_keys) layer_1_grid.
Proof.
  apply layer_1_grid_complete.
  - apply (count_keys_bounds _ required_keys).
  - apply (count_keys_bounds _ sanity_keys).
Qed.

(** The three checks hold at the 56 points of the grid, by computation in
    binary64 arithmetic. *)
Lemma layer_1_grid_checked :
  forallb (fun x => check_layer_1 x && check_composite x && check_incomplete x)
          layer_1_grid = true.
Proof. vm_compute. reflexivity. Qed.

(** What the checks say of the layer-1 score of a record and of the
    composite behind it. *)
Lemma record_score_checked (d : record) :
  let s := record_score d in
  let final := weighted_composite s (Py.Int 99) (Py.Int 99) in
  within_0_100 s = true
  /\ Py.lt s (Py.Int 75) = negb (Py.ge s (Py.Int 75))
  /\ (Py.lt s (Py.Int 75) = false ->
      within_0_100 final = true
      /\ Py.ge final (Py.Int 85) = true
      /\ Py.le composite_floor final = true
      /\ Py.le (Py.Float 91.08) final = true
      /\ Py.lt final (Py.Int 95) = negb (Py.ge final (Py.Int 95))
      /\ Py.lt final (Py.Int 85) = false
      /\ Py.lt final (Py.Int 75) = false).
Proof.
  pose proof layer_1_grid_checked as G. rewrite forallb_forall in G.
  specialize (G _ (record_in_grid d)).
  unfold check_layer_1, check_composite in G. cbv beta iota zeta in G.
  apply andb_prop in G as [[G1%andb_prop G2]%andb_prop _].
  destruct G1 as [G1a G1b%eqb_prop]. fold (record_score d) in *.
  cbv zeta. split; [exact G1a|]. split; [exact G1b|].
  intros Hs. rewrite Hs in G2. cbn [orb] in G2.
  apply andb_prop in G2 as [G2 F7].
  apply andb_prop in G2 as [G2 F6]. apply andb_prop in G2 as [G2 F5].
  apply andb_prop in G2 as [G2 F4]. apply andb_prop in G2 as [G2 F3].
  apply andb_prop in G2 as [F1 F2].
  apply eqb_prop in F5. apply negb_true_iff in F6, F7. tauto.
Qed.

(** A record without an authentic source, or with a sanity key absent or
    blank and one of the six keys missing, is stopped by layer 1. *)
Lemma record_score_incomplete (d : record) :
  existsb (Py.contains (text d "source")) authoritative_sources = false
  \/ (1 <= count_keys (absent_or_blank d) sanity_keys
      /\ count_keys (Py.has_key d) required_keys <= 5) ->
  Py.lt (record_score d) (Py.Int 75) = true.
Proof.
  pose proof layer_1_grid_checked as G. rewrite forallb_forall in G.
  specialize (G _ (record_in_grid d)).
  unfold check_incomplete in G. cbv beta iota zeta in G.
  apply andb_prop in G as [_ G]. fold (record_score d) in G.
  intros [Ha | [Hk Hp]].
  - rewrite Ha in G. exact G.
  - apply Z.leb_le in Hk, Hp. rewrite Hk, Hp, orb_true_r in G. exact G.
Qed.

(** ** [validate_data_point] on a record *)

(** An expression that returns leaves the state as it was. *)
Lemma eval_returns {S A : Type} (m : result A) (s s' : S) (a : A) :
  eval m s = Returns a s' -> m = inr a /\ s' = s.
Proof. unfold eval. destruct m; intros H; inversion H; auto. Qed.

Section Validate_facts.
Variable isoformat_at : nat -> string.
Abbreviation validate := (validate_data_point isoformat_at).

(** A call that returns ran layer 1 on a record with string fields, and
    either stopped there or went through the two stand-ins. *)
Lemma validate_data_point_inv (d : record) (w w' : world) (r : ValidationReport) :
  validate d w = Returns r w' ->
  text_fields d = true
  /\ exists r1,
      _layer_1_internal_verification d = inr r1
      /\ score r1 = record_score d
      /\ layer_1 r = Some r1
      /\ ((Py.lt (score r1) (Py.Int 75) = true
           /\ layer_2 r = None /\ layer_3 r = None
           /\ final_status r = Some (value_of REJECTED)
           /\ final_score r = score r1)
          \/ (Py.lt (score r1) (Py.Int 75) = false
              /\ exists r2 r3,
                  layer_2 r = Some r2 /\ layer_3 r = Some r3
                  /\ score r2 = Py.Int 99 /\ score r3 = Py.Int 99
                  /\ final_score r
                     = weighted_composite (score r1) (score r2) (score r3)
                  /\ final_status r = Some (value_of (classify (final_score r))))).
Proof.
  intros H. unfold validate_data_point in H.
  destruct (text_fields d) eqn:Htext.
  2:{ destruct (_layer_1_internal_verification_raises d Htext) as [e He].
      unfold cascade, on_clock, now_isoformat, eval in H.
      cbn [bind ret M_monad clock self] in H. rewrite He in H. discriminate H. }
  split; [reflexivity|].
  destruct (_layer_1_internal_verification_text d Htext) as (sc & ic & qc & E1 & _).
  pose proof (fun r1 r2 r3 => cascade_scored _ _ _ _ _ _ _ _ r1 r2 r3 H) as Hscored.
  run_cascade H.
  all: apply eval_returns in Hlayer as [Hl1 ->]; rewrite E1 in Hl1;
    injection Hl1 as <-; eexists; split; [exact E1|]; split; [reflexivity|];
    split; [reflexivity|].
  1: left; repeat split; assumption.
  all: destruct (_layer_2_external_verification_score isoformat_at d (S (S (clock w))))
         as (sources & E2 & _); rewrite E2 in Hlayer0; injection Hlayer0 as <- <-.
  1: discriminate Hgate0.
  all: destruct (_layer_3_reproducibility_test_score d) as (checks & E3 & _);
    apply eval_returns in Hlayer1 as [Hl3 ->]; rewrite E3 in Hl3; injection Hl3 as <-.
  1: discriminate Hgate1.
  all: right; split; [assumption|]; do 2 eexists;
    split; [reflexivity|]; split; [reflexivity|];
    split; [reflexivity|]; split; [reflexivity|];
    exact (Hscored _ _ _ eq_refl eq_refl eq_refl Hgate1).
Qed.

End Validate_facts.

(** ** The bands *)

(** The bands are closed below: 95 is GOLD and 85 is SILVER, 75 is BRONZE,
    and a score just under a bound falls in the band below. *)
Example classify_boundaries :
  classify (Py.Float 95) = GOLD /\ classify (Py.Float 94.999) = SILVER
  /\ classify (Py.Float 85) = SILVER /\ classify (Py.Float 84.999) = BRONZE
  /\ classify (Py.Float 75) = BRONZE /\ classify (Py.Float 74.999) = REJECTED.
Proof. repeat split; vm_compute; reflexivity. Qed.

(** ** Layer 2 on an arbitrary panel *)

(** The integer 100 converts to the float 100. *)
Lemma float_of_int_100 : Py.float_of_int 100 = 100%float.
Proof. vm_compute. reflexivity. Qed.

(** The valid answers are among the answers. *)
Lemma valid_sources_le (sources : list ExternalSourceResult) :
  (length (List.filter valid sources) <= length sources)%nat.
Proof. apply filter_length_le. Qed.

(** No valid answer: the guarded branch, score 0 and no division. *)
Lemma layer_2_of_sources_none (sources : list ExternalSourceResult) :
  length (List.filter valid sources) = 0%nat ->
  layer_2_of_sources sources
  = inr {| layer := 2; name := "External Verification";
           detail := External sources (Py.Int 0); score := Py.Int 0 |}.
Proof.
  intros H. unfold layer_2_of_sources.
  destruct (List.filter valid sources); [reflexivity | discriminate H].
Qed.

(** Some valid answer: the agreement percentage and its band. *)
Lemma layer_2_of_sources_some (sources : list ExternalSourceResult) :
  length (List.filter valid sources) <> 0%nat ->
  layer_2_of_sources sources
  = inr {| layer := 2; name := "External Verification";
           detail := External sources
                       (percentage (length (List.filter valid sources)) (length sources));
           score := band (percentage (length (List.filter valid sources))
                                     (length sources)) |}.
Proof.
  intros H. pose proof (valid_sources_le sources) as Hle.
  unfold layer_2_of_sources.
  destruct (List.filter valid sources) as [|s rest] eqn:E; [contradiction|].
  unfold Py.truediv, Py.len, Py.is_zero.
  destruct (Z.eqb_spec (Z.of_nat (length sources)) 0) as [Hz|_]; [cbn in Hle; lia|].
  cbn [bind ret result_monad]. unfold percentage, Py.mul, Py.as_float.
  rewrite float_of_int_100. reflexivity.
Qed.



(** ** Layer 1, sub-check by sub-check *)

(** Source authenticity is 99 exactly when an allow-list entry occurs in
    the source string. *)
Lemma source_authenticity_cases (d : record) :
  (source_authenticity d = Py.Int 99
   /\ exists entry, In entry authoritative_sources /\ occurs_in entry (text d "source"))
  \/ (source_authenticity d = Py.Int 0
      /\ forall entry, In entry authoritative_sources ->
                       ~ occurs_in entry (text d "source")).
Proof.
  unfold source_authenticity.
  destruct (existsb (Py.contains (text d "source")) authoritative_sources) eqn:E.
  - left. split; [reflexivity|]. apply existsb_exists in E as (entry & Hin & Hc).
    exists entry. split; [exact Hin|]. apply contains_spec. exact Hc.
  - right. split; [reflexivity|]. intros entry Hin Hocc.
    apply contains_spec in Hocc.
    assert (existsb (Py.contains (text d "source")) authoritative_sources = true)
      by (apply existsb_exists; eauto).
    congruence.
Qed.

(** A key that passes the test is counted. *)
Lemma count_keys_passing (test : string -> bool) (keys : list string) (key : string) :
  In key keys -> test key = true -> 1 <= count_keys test keys.
Proof.
  intros Hin Ht. unfold count_keys.
  assert (In key (List.filter test keys)) as Hf by (apply filter_In; auto).
  destruct (List.filter test keys); [contradiction | cbn [length]; lia].
Qed.

(** A key that fails the test is not counted. *)
Lemma count_keys_failing (test : string -> bool) (keys : list string) (key : string) :
  In key keys -> test key = false -> count_keys test keys <= Z.of_nat (length keys) - 1.
Proof.
  intros Hin Ht. unfold count_keys.
  induction keys as [|k keys IH]; [contradiction|]. cbn [List.filter length].
  destruct Hin as [-> | Hin].
  - rewrite Ht. pose proof (filter_length_le test keys). lia.
  - specialize (IH Hin). destruct (test k); cbn [length]; lia.
Qed.

(** Claim C5, amended. For every record whose source, address, city and
    state are strings where present, the layer-1 score is the unweighted
    mean of three sub-checks: source authenticity, 99 if an allow-list
    entry occurs in the source string and 0 otherwise; structural
    completeness, (number of the six keys present) / 6 * 100; content
    sanity, 90 minus 50 for each of address, city, state that is absent or
    blank after stripping whitespace, floored at 0. *)
Theorem _layer_1_internal_verification_score (d : record) :
  text_fields d = true ->
  exists source_check integrity_check quality_check r1,
    _layer_1_internal_verification d = inr r1
    /\ detail r1 = Checks source_check integrity_check quality_check
    /\ score r1 = mean3 (source_check_score source_check)
                        (integrity_check_score integrity_check)
                        (quality_check_score quality_check)
    /\ ((source_check_score source_check = Py.Int 99
         /\ exists entry, In entry authoritative_sources
                          /\ occurs_in entry (text d "source"))
        \/ (source_check_score source_check = Py.Int 0
            /\ forall entry, In entry authoritative_sources ->
                             ~ occurs_in entry (text d "source")))
    /\ integrity_check_score integrity_check
       = completeness_of (count_keys (Py.has_key d) required_keys)
    /\ quality_check_score quality_check
       = Py.Int (Z.max 0 (90 - 50 * count_keys (absent_or_blank d) sanity_keys)).
Proof.
  intros Htext.
  destruct (_layer_1_internal_verification_text d Htext)
    as (sc & ic & qc & E1 & Hsc & Hic & Hqc).
  exists sc, ic, qc. eexists. split; [exact E1|]. cbn [detail score].
  rewrite Hsc, Hic, Hqc. repeat split.
  apply source_authenticity_cases.
Qed.

(** ** The claims about [validate_data_point] *)

Section Claims.
Variable isoformat_at : nat -> string.
Abbreviation validate := (validate_data_point isoformat_at).

(** On a record whose text fields are strings the call returns. *)
Lemma validate_data_point_returns (d : record) (w : world) :
  text_fields d = true ->
  exists r w', validate d w = Returns r w'.
Proof.
  intros Htext.
  destruct (_layer_1_internal_verification_text d Htext) as (sc & ic & qc & E1 & _).
  destruct (_layer_3_reproducibility_test_score d) as (checks & E3 & _).
  destruct (_layer_2_external_verification_score isoformat_at d (S (S (clock w))))
    as (sources & E2 & _).
  unfold validate_data_point, cascade, on_clock, on_self, now_isoformat, eval.
  cbn [bind ret M_monad clock self]. rewrite E1. cbn [bind ret M_monad clock self score].
  destruct (Py.lt _ (Py.Int 75)); [eauto|]. cbn [clock self].
  rewrite E2. cbn [bind ret M_monad clock self score].
  replace (Py.lt (Py.Int 99) (Py.Int 75)) with false by reflexivity.
  rewrite E3. cbn [bind ret M_monad clock self score].
  replace (Py.lt (Py.Int 99) (Py.Int 75)) with false by reflexivity.
  repeat match goal with |- context [if Py.ge ?a ?b then _ else _] =>
    destruct (Py.ge a b) end; eauto.
Qed.

(** A call that raises was stopped inside layer 1, before anything was
    written: the ledger and the audit log are as they were. *)
Lemma validate_data_point_raises (d : record) (w w' : world) (e : Py.exn) :
  validate d w = Raises e w' ->
  text_fields d = false
  /\ _layer_1_internal_verification d = inl e
  /\ self w' = self w.
Proof.
  intros H. destruct (text_fields d) eqn:Htext.
  - destruct (validate_data_point_returns d w Htext) as (r & w'' & E).
    rewrite E in H. discriminate H.
  - destruct (_layer_1_internal_verification_raises d Htext) as [e' He].
    unfold validate_data_point, cascade, on_clock, now_isoformat, eval in H.
    cbn [bind ret M_monad clock self] in H. rewrite He in H.
    injection H as <- <-. auto.
Qed.

(** Claim C1. For every record, a layer that was executed and scored below
    75 ends the call: the final status is REJECTED, the final score is that
    layer's score, no later layer was executed, and [self.audit_log] grew by
    exactly one entry per executed layer, in the order of execution. Such a
    run appends 1 or 2 entries, never 3, and the later layers are not
    invoked: the run is the same whatever methods stand in their place. *)
Theorem validate_data_point_early_exit
  (d : record) (w w' : world) (r : ValidationReport) (k : nat) (res : LayerResult) :
  validate d w = Returns r w' ->
  layer_slot r k = Some res ->
  Py.lt (score res) (Py.Int 75) = true ->
  final_status r = Some (value_of REJECTED)
  /\ final_score r = score res
  /\ (forall j, (k < j)%nat -> layer_slot r j = None)
  /\ exists new,
       audit_log (self w') = (audit_log (self w) ++ new)%list
       /\ map audit_layer new = map Z.of_nat (seq 1 (length (executed_layers r)))
       /\ map audit_score new = map score (executed_layers r)
       /\ Forall (fun e => audit_data_point e
                           = Py.get d "address" (Py.VStr "unknown")) new
       /\ length (executed_layers r) = k
       /\ (length new = 1 \/ length new = 2)%nat
       /\ (k = 1%nat ->
           forall other_2 other_3,
             cascade isoformat_at (fun d => eval (_layer_1_internal_verification d))
                     other_2 other_3 d w = Returns r w')
       /\ (k = 2%nat ->
           forall other_3,
             cascade isoformat_at (fun d => eval (_layer_1_internal_verification d))
                     (_layer_2_external_verification isoformat_at) other_3 d w
             = Returns r w').
Proof.
  intros H Hk Hlt. unfold validate_data_point in H.
  destruct (cascade_not_invoked _ _ _ _ _ _ _ _ H) as [Hskip2 Hskip3].
  destruct (cascade_early_exit _ _ _ _ _ _ _ _ H k res Hk Hlt) as (Hst & Hsc & Hlater & Hlen).
  destruct (cascade_audit_log _ _ _ _ _ _ _ _ H) as (new & Hlog & Hlayers & Hscores & Hid).
  repeat (split; [assumption|]). exists new. repeat (split; [assumption|]).
  assert (Hnew : length new = k).
  { rewrite <- (length_map audit_layer), Hlayers, length_map, length_seq. exact Hlen. }
  rewrite Hnew.
  destruct k as [|[|[|[|k]]]]; cbn in Hk; try discriminate Hk.
  1: { repeat split; auto; try discriminate. intros _. apply Hskip2.
       apply (Hlater 2%nat). lia. }
  1: { repeat split; auto; try discriminate. intros _. apply Hskip3.
       apply (Hlater 3%nat). lia. }
  (* layer 3 cannot be the one below 75: its stand-in scores 99 *)
  exfalso. fold (validate d w) in H.
  destruct (validate_data_point_inv _ _ _ _ _ H) as (_ & r1 & _ & _ & _ & [Hrej | Hpass]).
  - destruct Hrej as (_ & _ & H3 & _). congruence.
  - destruct Hpass as (_ & r2 & r3 & _ & H3 & _ & Hs3 & _).
    rewrite H3 in Hk. injection Hk as <-. rewrite Hs3 in Hlt. discriminate Hlt.
Qed.

(** Claim C2, amended. For every record on which all three layers score at
    least 75, the final score is [layer1*0.33 + layer2*0.33 + layer3*0.34]
    in binary64 arithmetic, and the status is GOLD iff final >= 95, SILVER
    iff 85 <= final < 95, BRONZE iff 75 <= final < 85, REJECTED iff
    final < 75. Layer scores (80, 90, 85) give final = 85.000000000000014,
    one unit in the last place above 85, and status SILVER. *)
Theorem validate_data_point_composite
  (d : record) (w w' : world) (r : ValidationReport) :
  (validate d w = Returns r w' ->
   forall r1 r2 r3,
     layer_1 r = Some r1 -> layer_2 r = Some r2 -> layer_3 r = Some r3 ->
     Py.ge (score r1) (Py.Int 75) = true ->
     Py.ge (score r2) (Py.Int 75) = true ->
     Py.ge (score r3) (Py.Int 75) = true ->
     let final := final_score r in
     final = weighted_composite (score r1) (score r2) (score r3)
     /\ (final_status r = Some (value_of GOLD) <-> Py.ge final (Py.Int 95) = true)
     /\ (final_status r = Some (value_of SILVER) <->
         Py.ge final (Py.Int 85) = true /\ Py.lt final (Py.Int 95) = true)
     /\ (final_status r = Some (value_of BRONZE) <->
         Py.ge final (Py.Int 75) = true /\ Py.lt final (Py.Int 85) = true)
     /\ (final_status r = Some (value_of REJECTED) <-> Py.lt final (Py.Int 75) = true))
  /\ exists r' w'',
       cascade isoformat_at (scoring 1 (Py.Int 80)) (scoring 2 (Py.Int 90))
               (scoring 3 (Py.Int 85)) d w = Returns r' w''
       /\ final_score r' = Py.Float 85.000000000000014
       /\ final_status r' = Some (value_of SILVER).
Proof.
  split.
  - intros H r1' r2' r3' Hr1 Hr2 Hr3 Hge1 _ _.
    destruct (validate_data_point_inv _ _ _ _ _ H) as (_ & r1 & _ & Hs1 & Hl1 & [Hrej | Hpass]).
    { destruct Hrej as (_ & Hl2 & _). congruence. }
    destruct Hpass as (Hlt & r2 & r3 & Hl2 & Hl3 & Hs2 & Hs3 & Hfs & Hst).
    rewrite Hl1 in Hr1. rewrite Hl2 in Hr2. rewrite Hl3 in Hr3.
    injection Hr1 as <-. injection Hr2 as <-. injection Hr3 as <-.
    pose proof (record_score_checked d) as (_ & _ & Hchk). cbv zeta in Hchk.
    rewrite Hs1 in Hlt. specialize (Hchk Hlt) as (_ & H85 & _ & _ & H95 & Hn85 & Hn75).
    cbv zeta. split; [exact Hfs|].
    pose proof Hfs as Hfs'. rewrite Hs1, Hs2, Hs3 in Hfs'.
    rewrite <- Hfs' in H85, H95, Hn85, Hn75.
    rewrite Hst. unfold classify. rewrite H85, H95, Hn85, Hn75.
    destruct (Py.ge (final_score r) (Py.Int 95)); cbn [negb value_of];
      repeat split; try discriminate; try tauto; try (intros [? ?]; discriminate).
  - unfold cascade, scoring, on_clock, on_self, now_isoformat.
    cbn [bind ret M_monad clock self score].
    do 2 eexists. split; [reflexivity|]. split; reflexivity.
Qed.

(** Claim C3. For every record, a returned report whose final status is
    REJECTED has the score of the one layer that stopped the run as its
    final score, no later layer having been executed; a report with any
    other status has the weighted composite of its three layer scores. *)
Theorem validate_data_point_final_score
  (d : record) (w w' : world) (r : ValidationReport) :
  validate d w = Returns r w' ->
  (final_status r = Some (value_of REJECTED) ->
   exists k res,
     layer_slot r k = Some res
     /\ Py.lt (score res) (Py.Int 75) = true
     /\ (forall j, (k < j)%nat -> layer_slot r j = None)
     /\ final_score r = score res)
  /\ (final_status r <> Some (value_of REJECTED) ->
      exists r1 r2 r3,
        layer_1 r = Some r1 /\ layer_2 r = Some r2 /\ layer_3 r = Some r3
        /\ final_score r = weighted_composite (score r1) (score r2) (score r3)).
Proof.
  intros H.
  destruct (validate_data_point_inv _ _ _ _ _ H) as (_ & r1 & _ & Hs1 & Hl1 & [Hrej | Hpass]).
  - destruct Hrej as (Hlt & Hl2 & Hl3 & Hst & Hfs). split.
    + intros _. exists 1%nat, r1. repeat split; try assumption.
      intros [|[|[|[|j]]]] Hj; cbn; try assumption; try reflexivity; lia.
    + intros Hne. contradiction.
  - destruct Hpass as (Hlt & r2 & r3 & Hl2 & Hl3 & Hs2 & Hs3 & Hfs & Hst).
    pose proof (record_score_checked d) as (_ & _ & Hc). cbv zeta in Hc.
    rewrite Hs1 in Hlt. specialize (Hc Hlt) as (_ & H85 & _).
    rewrite Hfs, Hs1, Hs2, Hs3 in Hst.
    split.
    + intros Hr. rewrite Hst in Hr. unfold classify in Hr.
      rewrite H85 in Hr. destruct (Py.ge _ (Py.Int 95)); discriminate Hr.
    + intros _. exists r1, r2, r3. auto.
Qed.

(** Claim C6, amended. For every record whose source, address, city and
    state are strings where present (any of them may be missing or blank),
    the call never raises; and a record that lacks its source, address,
    city or state is scored below 75 by layer 1 and routed to REJECTED. *)
Theorem validate_data_point_never_raises (d : record) (w : world) :
  text_fields d = true ->
  exists r w',
    validate d w = Returns r w'
    /\ (d !! "source" = None \/ d !! "address" = None
        \/ d !! "city" = None \/ d !! "state" = None ->
        final_status r = Some (value_of REJECTED)
        /\ Py.lt (final_score r) (Py.Int 75) = true
        /\ layer_2 r = None /\ layer_3 r = None).
Proof.
  intros Htext. destruct (validate_data_point_returns d w Htext) as (r & w' & H).
  exists r, w'. split; [exact H|]. intros Hmissing.
  assert (Hlow : Py.lt (record_score d) (Py.Int 75) = true).
  { apply record_score_incomplete.
    assert (Hsanity : forall key, In key sanity_keys -> d !! key = None ->
              1 <= count_keys (absent_or_blank d) sanity_keys
              /\ count_keys (Py.has_key d) required_keys <= 5).
    { intros key Hin Hnone. split.
      - apply (count_keys_passing _ _ key Hin). unfold absent_or_blank.
        rewrite Hnone. reflexivity.
      - assert (In key required_keys) as Hreq
          by (cbn in Hin |- *; tauto).
        pose proof (count_keys_failing (Py.has_key d) required_keys key Hreq) as Hf.
        unfold Py.has_key at 1 in Hf. rewrite Hnone in Hf.
        specialize (Hf eq_refl). cbn [length required_keys] in Hf. lia. }
    destruct Hmissing as [Hsrc | [Ha | [Hc | Hs]]].
    - left. unfold text. rewrite Hsrc. reflexivity.
    - right. apply (Hsanity "address"); [cbn; tauto | exact Ha].
    - right. apply (Hsanity "city"); [cbn; tauto | exact Hc].
    - right. apply (Hsanity "state"); [cbn; tauto | exact Hs]. }
  destruct (validate_data_point_inv _ _ _ _ _ H) as (_ & r1 & _ & Hs1 & _ & [Hrej | Hpass]).
  - destruct Hrej as (Hlt & Hl2 & Hl3 & Hst & Hfs). rewrite Hfs. auto.
  - destruct Hpass as (Hlt & _). rewrite Hs1, Hlow in Hlt. discriminate Hlt.
Qed.

(** A call that returns leaves its report in one list of the ledger. *)
Lemma validate_data_point_ledger (d : record) (w w' : world) (r : ValidationReport) :
  validate d w = Returns r w' ->
  (has_status REJECTED r = true
   /\ validation_history (self w') = validation_history (self w)
   /\ rejected_data (self w') = (rejected_data (self w) ++ [r])%list)
  \/ (has_status REJECTED r = false
      /\ validation_history (self w') = (validation_history (self w) ++ [r])%list
      /\ rejected_data (self w') = rejected_data (self w)).
Proof.
  intros H. pose proof H as Hc. unfold validate_data_point in Hc.
  destruct (cascade_ledger _ _ _ _ _ _ _ _ Hc) as [Hscored | Hrejected].
  - right. destruct Hscored as (Hlen & _ & Hhist & Hrej).
    destruct (validate_data_point_inv _ _ _ _ _ H) as (_ & r1 & _ & Hs1 & Hl1 & [Hr | Hp]).
    + destruct Hr as (_ & Hl2 & Hl3 & _). unfold executed_layers in Hlen.
      rewrite Hl1, Hl2, Hl3 in Hlen. discriminate Hlen.
    + destruct Hp as (Hlt & r2 & r3 & _ & _ & Hs2 & Hs3 & Hfs & Hst).
      pose proof (record_score_checked d) as (_ & _ & Hchk). cbv zeta in Hchk.
      rewrite Hs1 in Hlt. specialize (Hchk Hlt) as (_ & H85 & _).
      rewrite Hs1, Hs2, Hs3 in Hfs. rewrite <- Hfs in H85.
      assert (Hnot : has_status REJECTED r = false).
      { unfold has_status. rewrite Hst. unfold classify. rewrite H85.
        destruct (Py.ge _ (Py.Int 95)); reflexivity. }
      rewrite Hnot, app_nil_r in Hrej. auto.
  - left. destruct Hrejected as (Hst & _ & Hhist & Hrej). auto.
Qed.

(** A GOLD or SILVER report is not a REJECTED one. *)
Lemma releasable_not_rejected (r : ValidationReport) :
  status_among [GOLD; SILVER] r = true -> has_status REJECTED r = false.
Proof.
  unfold status_among, has_status. cbn [existsb value_of].
  destruct (final_status r) as [v|]; [|reflexivity].
  rewrite orb_false_r, orb_true_iff, !String.eqb_eq. intros [-> | ->]; reflexivity.
Qed.

(** Selecting GOLD and SILVER among the reports that are not REJECTED
    selects them among all. *)
Lemma filter_releasable (rs : list ValidationReport) :
  List.filter (status_among [GOLD; SILVER])
              (List.filter (fun r => negb (has_status REJECTED r)) rs)
  = List.filter (status_among [GOLD; SILVER]) rs.
Proof.
  induction rs as [|r rs IH]; [reflexivity|]. cbn [List.filter].
  destruct (status_among [GOLD; SILVER] r) eqn:Hr.
  - rewrite (releasable_not_rejected r Hr). cbn [negb List.filter]. rewrite Hr, IH.
    reflexivity.
  - destruct (has_status REJECTED r); cbn [negb List.filter]; rewrite ?Hr; exact IH.
Qed.

(** Claim C7. The ledger is a partition of the completed reports: over any
    run of calls, the REJECTED reports, and only they, are appended to
    [rejected_data]; the other reports, and only they, are appended to
    [validation_history]; [get_releasable_data] grows by exactly the GOLD
    and SILVER reports. *)
Theorem ledger_partition
  (data_points : list record) (w w' : world) (results : list ValidationReport) :
  validate_all isoformat_at data_points w = Returns results w' ->
  rejected_data (self w')
  = (rejected_data (self w) ++ List.filter (has_status REJECTED) results)%list
  /\ validation_history (self w')
     = (validation_history (self w)
        ++ List.filter (fun r => negb (has_status REJECTED r)) results)%list
  /\ get_rejected_data (self w')
     = (get_rejected_data (self w) ++ List.filter (has_status REJECTED) results)%list
  /\ get_releasable_data (self w')
     = (get_releasable_data (self w)
        ++ List.filter (status_among [GOLD; SILVER]) results)%list.
Proof.
  intros H.
  assert (G : rejected_data (self w')
              = (rejected_data (self w) ++ List.filter (has_status REJECTED) results)%list
              /\ validation_history (self w')
                 = (validation_history (self w)
                    ++ List.filter (fun r => negb (has_status REJECTED r)) results)%list).
  { revert w results H. induction data_points as [|d rest IH]; intros w results H.
    - cbn in H. injection H as <- <-. cbn. rewrite !app_nil_r. auto.
    - cbn [validate_all bind M_monad] in H.
      destruct (validate_data_point isoformat_at d w) as [r w1|e w1] eqn:Hd;
        [|discriminate H].
      destruct (validate_all isoformat_at rest w1) as [rs w2|e w2] eqn:Hrest;
        [|discriminate H].
      cbn in H. injection H as <- <-.
      destruct (IH _ _ Hrest) as [IHr IHh]. rewrite IHr, IHh. cbn [List.filter].
      destruct (validate_data_point_ledger d w w1 r Hd) as [(Hs & Hh & Hr) | (Hs & Hh & Hr)];
        rewrite Hs, Hh, Hr; cbn [negb]; rewrite <- ?app_assoc; auto. }
  destruct G as [Gr Gh]. unfold get_rejected_data, get_releasable_data.
  repeat split; try assumption.
  rewrite Gh, List.filter_app, filter_releasable. reflexivity.
Qed.

(** Claim C8. For every record, the returned report has a final score
    between 0 and 100 and a final status that is the value of exactly one
    of GOLD, SILVER, BRONZE, REJECTED. *)
Theorem validate_data_point_range
  (d : record) (w w' : world) (r : ValidationReport) :
  validate d w = Returns r w' ->
  Py.le (Py.Int 0) (final_score r) = true
  /\ Py.le (final_score r) (Py.Int 100) = true
  /\ exists s : ValidationStatus,
       final_status r = Some (value_of s)
       /\ forall s', final_status r = Some (value_of s') -> s' = s.
Proof.
  intros H.
  assert (Hinj : forall s s', Some (value_of s') = Some (value_of s) -> s' = s).
  { intros [] []; cbn; intros E; try reflexivity; discriminate E. }
  destruct (validate_data_point_inv _ _ _ _ _ H) as (_ & r1 & _ & Hs1 & Hl1 & [Hrej | Hpass]).
  - destruct Hrej as (Hlt & _ & _ & Hst & Hfs).
    pose proof (record_score_checked d) as ([Ha Hb]%andb_prop & _). cbv zeta in Ha, Hb.
    rewrite Hfs, Hs1. repeat split; try assumption.
    exists REJECTED. split; [exact Hst|]. intros s' Hs'. apply Hinj. congruence.
  - destruct Hpass as (Hlt & r2 & r3 & _ & _ & Hs2 & Hs3 & Hfs & Hst).
    pose proof (record_score_checked d) as (_ & _ & Hc). cbv zeta in Hc.
    rewrite Hs1 in Hlt. specialize (Hc Hlt) as ([Ha Hb]%andb_prop & _).
    rewrite Hs1, Hs2, Hs3 in Hfs. rewrite <- Hfs in Ha, Hb.
    repeat split; try assumption.
    exists (classify (final_score r)). split; [exact Hst|].
    intros s' Hs'. apply Hinj. congruence.
Qed.

(** No returned report carries an audit trail of its own, although every
    call appends to [self.audit_log]. *)
Lemma validate_data_point_audit_trail
  (d : record) (w w' : world) (r : ValidationReport) :
  validate d w = Returns r w' ->
  audit_trail r = []
  /\ (length (audit_log (self w)) < length (audit_log (self w')))%nat.
Proof.
  intros H. unfold validate_data_point in H.
  destruct (cascade_audit_trail _ _ _ _ _ _ _ _ H) as [Htrail _].
  destruct (cascade_audit_log _ _ _ _ _ _ _ _ H) as (new & Hlog & Hlayers & _).
  split; [exact Htrail|]. rewrite Hlog, length_app.
  apply (f_equal (@length Z)) in Hlayers. rewrite !length_map, length_seq in Hlayers.
  fold (validate d w) in H.
  destruct (validate_data_point_inv _ _ _ _ _ H) as (_ & r1 & _ & _ & Hl1 & _).
  unfold executed_layers in Hlayers. rewrite Hl1 in Hlayers.
  cbn in Hlayers. lia.
Qed.

(** Claim C10. The stand-ins make layer 2 and layer 3 score 99 on every
    record; so a record whose layer-1 score is at least 75 has a composite
    of at least [0.33*75 + 0.33*99 + 0.34*99], about 91.08; no call returns
    BRONZE; and a REJECTED report was stopped at layer 1. *)
Theorem stand_ins_never_bronze
  (d : record) (n : nat) (w w' : world) (r : ValidationReport) :
  (exists r2, _layer_2_external_verification isoformat_at d n = Returns r2 (5 + n)%nat
              /\ score r2 = Py.Int 99)
  /\ (exists r3, _layer_3_reproducibility_test d = inr r3 /\ score r3 = Py.Int 99)
  /\ (validate d w = Returns r w' ->
      (forall r1, layer_1 r = Some r1 -> Py.ge (score r1) (Py.Int 75) = true ->
                  Py.le composite_floor (final_score r) = true
                  /\ Py.le (Py.Float 91.08) (final_score r) = true)
      /\ final_status r <> Some (value_of BRONZE)
      /\ (final_status r = Some (value_of REJECTED) ->
          exists r1, layer_1 r = Some r1
                     /\ Py.lt (score r1) (Py.Int 75) = true
                     /\ final_score r = score r1
                     /\ layer_2 r = None /\ layer_3 r = None)).
Proof.
  split; [|split].
  - destruct (_layer_2_external_verification_score isoformat_at d n) as (sources & E & _).
    eexists. split; [exact E | reflexivity].
  - destruct (_layer_3_reproducibility_test_score d) as (checks & E & _).
    eexists. split; [exact E | reflexivity].
  - intros H.
    destruct (validate_data_point_inv _ _ _ _ _ H) as (_ & r1 & _ & Hs1 & Hl1 & [Hrej | Hpass]).
    + destruct Hrej as (Hlt & Hl2 & Hl3 & Hst & Hfs). split; [|split].
      * intros r1' Hr1' Hge. rewrite Hl1 in Hr1'. injection Hr1' as <-.
        pose proof (record_score_checked d) as (_ & Hgate & _). cbv zeta in Hgate.
        rewrite <- Hs1, Hlt, Hge in Hgate. discriminate Hgate.
      * rewrite Hst. discriminate.
      * intros _. exists r1. auto.
    + destruct Hpass as (Hlt & r2 & r3 & Hl2 & Hl3 & Hs2 & Hs3 & Hfs & Hst).
      pose proof (record_score_checked d) as (_ & _ & Hchk). cbv zeta in Hchk.
      rewrite Hs1 in Hlt. specialize (Hchk Hlt) as (_ & H85 & Hfloor & H91 & _).
      rewrite Hs1, Hs2, Hs3 in Hfs. rewrite <- Hfs in H85, Hfloor, H91.
      assert (Hcls : classify (final_score r) = GOLD \/ classify (final_score r) = SILVER).
      { unfold classify. rewrite H85. destruct (Py.ge _ (Py.Int 95)); auto. }
      split; [|split].
      * intros _ _ _. auto.
      * rewrite Hst. destruct Hcls as [-> | ->]; discriminate.
      * rewrite Hst. destruct Hcls as [-> | ->]; discriminate.
Qed.

End Claims.

(** ** Where the code departs from the claims *)

(** Claim C9, at the first record of the module's example run: three
    layers are executed and three entries reach [self.audit_log], yet the
    report's own [audit_trail] is the empty list of the template, also in
    the batch report [generate_validation_report] hands on. *)
Theorem riverside_audit_trail_empty :
  (exists r w',
      validate_data_point ticking riverside fresh = Returns r w'
      /\ audit_trail r = []
      /\ length (executed_layers r) = 3%nat
      /\ map audit_layer (audit_log (self w')) = [1; 2; 3])
  /\ exists batch w',
       generate_validation_report ticking [riverside] fresh = Returns batch w'
       /\ map audit_trail (validation_results batch) = [[]]
       /\ map audit_layer (batch_audit_log batch) = [1; 2; 3].
Proof.
  split.
  - do 2 eexists. split; [vm_compute; reflexivity|]. repeat split.
  - do 2 eexists. split; [vm_compute; reflexivity|]. repeat split.
Qed.

(** Claim C2 as stated fails: with layer scores (80, 90, 85) the final
    score is not 85.0. *)
Lemma composite_80_90_85_is_not_85 :
  exists r w',
    cascade ticking (scoring 1 (Py.Int 80)) (scoring 2 (Py.Int 90))
            (scoring 3 (Py.Int 85)) riverside fresh = Returns r w'
    /\ final_score r = weighted_composite (Py.Int 80) (Py.Int 90) (Py.Int 85)
    /\ final_score r = Py.Float 85.000000000000014
    /\ Py.eq (final_score r) (Py.Float 85) = false
    /\ final_score r <> Py.Float 85.
Proof.
  do 2 eexists. split; [vm_compute; reflexivity|]. split; [reflexivity|].
  split; [reflexivity|]. split; [reflexivity|].
  intros E. apply (f_equal (fun x => Py.eq x (Py.Float 85))) in E.
  vm_compute in E. discriminate E.
Qed.

(** Claim C5 as stated fails: a record without an address has no field
    that is present but blank, yet its content sanity is 40, not 90. *)
Lemma content_sanity_counts_absent_address :
  exists q,
    _check_data_quality no_address = inr q
    /\ present_but_blank no_address "address" = false
    /\ present_but_blank no_address "city" = false
    /\ present_but_blank no_address "state" = false
    /\ content_sanity_as_stated no_address = Py.Int 90
    /\ quality_check_score q = Py.Int 40
    /\ quality_check_score q <> content_sanity_as_stated no_address.
Proof.
  eexists. split; [vm_compute; reflexivity|].
  repeat split; try (vm_compute; reflexivity).
  vm_compute. discriminate.
Qed.


(** Claim C6 as stated fails: a record whose address is a number makes
    the call raise [AttributeError]. *)
Lemma validate_data_point_raises_on_numeric_address :
  exists w',
    numeric_address !! "address" = Some (Py.VNum (Py.Int 1094))
    /\ validate_data_point ticking numeric_address fresh
       = Raises (Py.AttributeError "'int' object has no attribute 'strip'") w'.
Proof. eexists. split; vm_compute; reflexivity. Qed.

(** ** The claims on example records *)

(** C1 on a record from a source outside the allow-list. *)
Lemma validate_data_point_early_exit_witness :
  exists r w' res,
    (validate_data_point ticking hearsay fresh = Returns r w'
     /\ layer_slot r 1 = Some res
     /\ Py.lt (score res) (Py.Int 75) = true)
    /\ final_status r = Some (value_of REJECTED)
    /\ final_score r = score res.
Proof.
  do 3 eexists. split.
  - split; [vm_compute; reflexivity | split; [reflexivity | vm_compute; reflexivity]].
  - refine (let H := validate_data_point_early_exit ticking hearsay fresh _ _ 1%nat _ _ _ _ in
            conj (proj1 H) (proj1 (proj2 H)));
      [vm_compute; reflexivity | reflexivity | vm_compute; reflexivity].
Defined.

(** C2 on the first record of the example run. *)
Lemma validate_data_point_composite_witness :
  exists r w' r1 r2 r3,
    (validate_data_point ticking riverside fresh = Returns r w'
     /\ layer_1 r = Some r1 /\ layer_2 r = Some r2 /\ layer_3 r = Some r3
     /\ Py.ge (score r1) (Py.Int 75) = true
     /\ Py.ge (score r2) (Py.Int 75) = true
     /\ Py.ge (score r3) (Py.Int 75) = true)
    /\ final_score r = weighted_composite (score r1) (score r2) (score r3).
Proof.
  do 5 eexists. split.
  - split; [vm_compute; reflexivity|]. repeat split; vm_compute; reflexivity.
  - refine (proj1 (proj1 (validate_data_point_composite ticking riverside fresh _ _)
                         _ _ _ _ _ _ _ _ _ _));
      first [reflexivity | vm_compute; reflexivity].
Defined.

(** C3 on a record from a source outside the allow-list. *)
Lemma validate_data_point_final_score_witness :
  exists r w',
    (validate_data_point ticking hearsay fresh = Returns r w'
     /\ final_status r = Some (value_of REJECTED))
    /\ exists k res,
         layer_slot r k = Some res
         /\ Py.lt (score res) (Py.Int 75) = true
         /\ (forall j, (k < j)%nat -> layer_slot r j = None)
         /\ final_score r = score res.
Proof.
  do 2 eexists. split.
  - split; [vm_compute; reflexivity | reflexivity].
  - refine (proj1 (validate_data_point_final_score ticking hearsay fresh _ _ _) _);
      [vm_compute; reflexivity | reflexivity].
Defined.


(** C5 on a record without its address. *)
Lemma _layer_1_internal_verification_score_witness :
  text_fields no_address = true
  /\ exists source_check integrity_check quality_check r1,
       _layer_1_internal_verification no_address = inr r1
       /\ detail r1 = Checks source_check integrity_check quality_check
       /\ source_check_score source_check = Py.Int 99
       /\ integrity_check_score integrity_check = completeness_of 5
       /\ quality_check_score quality_check = Py.Int 40.
Proof.
  split; [reflexivity|].
  destruct (_layer_1_internal_verification_score no_address eq_refl)
    as (sc & ic & qc & r1 & E & Hd & _ & Hsc & Hic & Hqc).
  exists sc, ic, qc, r1. repeat split; try assumption.
  destruct Hsc as [[Hsc _] | [_ Hno]]; [exact Hsc|].
  exfalso. apply (Hno "County Assessor"); [cbn; tauto|].
  exists "", "". reflexivity.
Defined.

(** C6 on a record without its address. *)
Lemma validate_data_point_never_raises_witness :
  (text_fields no_address = true /\ no_address !! "address" = None)
  /\ exists r w',
       validate_data_point ticking no_address fresh = Returns r w'
       /\ final_status r = Some (value_of REJECTED).
Proof.
  split; [split; reflexivity|].
  destruct (validate_data_point_never_raises ticking no_address fresh eq_refl)
    as (r & w' & H & Hrej).
  exists r, w'. split; [exact H|]. apply Hrej. right. left. reflexivity.
Defined.

(** C7 on a run of two records, one released and one rejected. *)
Lemma ledger_partition_witness :
  exists results w',
    validate_all ticking [riverside; hearsay] fresh = Returns results w'
    /\ map final_status (get_releasable_data (self w')) = [Some (value_of GOLD)]
    /\ map final_status (get_rejected_data (self w')) = [Some (value_of REJECTED)]
    /\ length (validation_history (self w')) = 1%nat.
Proof.
  eassert (H : validate_all ticking [riverside; hearsay] fresh = Returns _ _)
    by (vm_compute; reflexivity).
  do 2 eexists. split; [exact H|].
  destruct (ledger_partition ticking [riverside; hearsay] fresh _ _ H)
    as (_ & Hhist & Hrej & Hrel).
  rewrite Hrel, Hrej, Hhist. repeat split; vm_compute; reflexivity.
Defined.

(** C8 on the first record of the example run. *)
Lemma validate_data_point_range_witness :
  exists r w',
    validate_data_point ticking riverside fresh = Returns r w'
    /\ Py.le (Py.Int 0) (final_score r) = true
    /\ Py.le (final_score r) (Py.Int 100) = true.
Proof.
  do 2 eexists. split; [vm_compute; reflexivity|].
  refine (let H := validate_data_point_range ticking riverside fresh _ _ _ in
          conj (proj1 H) (proj1 (proj2 H))).
  vm_compute. reflexivity.
Defined.

(** C10 on a record with a blank city: layer 1 passes with 79.67, the
    composite is 92.62 and the status SILVER. *)
Lemma stand_ins_never_bronze_witness :
  exists r w',
    validate_data_point ticking blank_city fresh
    = Returns r w'
    /\ final_status r <> Some (value_of BRONZE)
    /\ final_status r = Some (value_of SILVER).
Proof.
  do 2 eexists. split; [vm_compute; reflexivity|]. split; [|reflexivity].
  refine (proj1 (proj2 (proj2 (proj2
    (stand_ins_never_bronze ticking blank_city 0 fresh _ _)) _))).
  vm_compute. reflexivity.
Defined.

(** ** Further properties of the validator *)

(** *** The status as a function of the record *)

Lemma layer_1_grid_verdict : forallb check_verdict layer_1_grid = true.
Proof. vm_compute. reflexivity. Qed.

(** A sanity key that is not blank is present. *)
Lemma present_when_not_blank (d : record) (key : string) :
  absent_or_blank d key = false -> Py.has_key d key = true.
Proof.
  unfold absent_or_blank, Py.has_key. destruct (d !! key); [reflexivity | discriminate].
Qed.

Lemma keys_present_when_no_blank (d : record) :
  blank_fields d = 0 -> 3 <= keys_present d.
Proof.
  unfold blank_fields, keys_present, count_keys, sanity_keys, required_keys.
  cbn [List.filter].
  pose proof (present_when_not_blank d "address") as Ha.
  pose proof (present_when_not_blank d "city") as Hc.
  pose proof (present_when_not_blank d "state") as Hs.
  destruct (absent_or_blank d "address"), (absent_or_blank d "city"),
    (absent_or_blank d "state"); cbn [length]; intros H; try lia.
  rewrite Ha, Hc, Hs by reflexivity.
  destruct (Py.has_key d "zip"), (Py.has_key d "source"), (Py.has_key d "timestamp");
    cbn [length]; lia.
Qed.

(** The layer-1 score of a record passes the gate, and the composite
    behind it lands in a band, as the verdict says. *)
Lemma record_verdict (d : record) :
  let s := record_score d in
  match verdict (is_authoritative d) (keys_present d) (blank_fields d) with
  | REJECTED => Py.lt s (Py.Int 75) = true
  | v => Py.lt s (Py.Int 75) = false
         /\ classify (weighted_composite s (Py.Int 99) (Py.Int 99)) = v
  end.
Proof.
  pose proof layer_1_grid_verdict as G. rewrite forallb_forall in G.
  specialize (G _ (record_in_grid d)). unfold check_verdict in G.
  cbv beta iota zeta in G. fold (is_authoritative d) (keys_present d) (blank_fields d) in G.
  fold (record_score d) in G. cbv zeta.
  apply orb_prop in G as [G | G].
  - apply andb_prop in G as [Hk Hp]. apply Z.eqb_eq in Hk. apply Z.ltb_lt in Hp.
    pose proof (keys_present_when_no_blank d Hk). lia.
  - destruct (verdict _ _ _); try exact G.
    all: apply andb_prop in G as [G1 G2]; apply negb_true_iff in G1;
      apply String.eqb_eq in G2; split; [exact G1|];
      destruct (classify _); cbn in G2; congruence.
Qed.

Section Verdicts.
Variable isoformat_at : nat -> string.

(** A returned report is REJECTED at layer 1, or GOLD or SILVER after all
    three layers. *)
Lemma validate_data_point_outcomes (d : record) (w w' : world) (r : ValidationReport) :
  validate_data_point isoformat_at d w = Returns r w' ->
  exists r1,
    layer_1 r = Some r1 /\ score r1 = record_score d
    /\ ((final_status r = Some (value_of REJECTED)
         /\ layer_2 r = None /\ layer_3 r = None
         /\ final_score r = score r1
         /\ Py.lt (score r1) (Py.Int 75) = true)
        \/ ((final_status r = Some (value_of GOLD)
             \/ final_status r = Some (value_of SILVER))
            /\ Py.lt (score r1) (Py.Int 75) = false
            /\ exists r2 r3,
                 layer_2 r = Some r2 /\ layer_3 r = Some r3
                 /\ score r2 = Py.Int 99 /\ score r3 = Py.Int 99
                 /\ final_score r = weighted_composite (score r1) (Py.Int 99) (Py.Int 99))).
Proof.
  intros H.
  destruct (validate_data_point_inv _ _ _ _ _ H) as (_ & r1 & _ & Hs1 & Hl1 & [Hrej | Hpass]).
  - exists r1. split; [exact Hl1|]. split; [exact Hs1|]. left. tauto.
  - destruct Hpass as (Hlt & r2 & r3 & Hl2 & Hl3 & Hs2 & Hs3 & Hfs & Hst).
    exists r1. split; [exact Hl1|]. split; [exact Hs1|]. right.
    rewrite Hs2, Hs3 in Hfs.
    pose proof (record_score_checked d) as (_ & _ & Hchk). cbv zeta in Hchk.
    rewrite Hs1 in Hlt. specialize (Hchk Hlt) as (_ & H85 & _).
    rewrite <- Hs1 in Hlt. split; [|split; [exact Hlt|]].
    + rewrite Hst, Hfs, Hs1. unfold classify. rewrite H85.
      destruct (Py.ge _ (Py.Int 95)); auto.
    + exists r2, r3. auto.
Qed.

(** The status of a returned report is the verdict of the record. *)
Lemma validate_data_point_status (d : record) (w w' : world) (r : ValidationReport) :
  validate_data_point isoformat_at d w = Returns r w' ->
  final_status r
  = Some (value_of (verdict (is_authoritative d) (keys_present d) (blank_fields d))).
Proof.
  intros H. pose proof (record_verdict d) as V. cbv zeta in V.
  destruct (validate_data_point_inv _ _ _ _ _ H) as (_ & r1 & _ & Hs1 & _ & [Hrej | Hpass]).
  - destruct Hrej as (Hlt & _ & _ & Hst & _). rewrite Hs1 in Hlt.
    destruct (verdict _ _ _); try exact Hst; destruct V as [V _]; congruence.
  - destruct Hpass as (Hlt & r2 & r3 & _ & _ & Hs2 & Hs3 & Hfs & Hst).
    rewrite Hs1 in Hlt. rewrite Hst, Hfs, Hs1, Hs2, Hs3.
    destruct (verdict _ _ _); try congruence; destruct V as [_ ->]; reflexivity.
Qed.

(** Property X1. On a record whose text fields are strings the call
    returns, and the status is decided by three facts about the record:
    whether an allow-list entry occurs in its source, how many of its six
    keys are present and how many of address, city, state are absent or
    blank. GOLD needs an authoritative source, no blank field and at least
    five keys; SILVER an authoritative source and either no blank field
    with at most four keys, or one blank field with all six keys; every
    other record is REJECTED. *)
Theorem validate_data_point_verdict (d : record) (w : world) :
  text_fields d = true ->
  exists r w',
    validate_data_point isoformat_at d w = Returns r w'
    /\ (final_status r = Some (value_of GOLD) <->
        is_authoritative d = true /\ blank_fields d = 0 /\ 5 <= keys_present d)
    /\ (final_status r = Some (value_of SILVER) <->
        is_authoritative d = true
        /\ ((blank_fields d = 0 /\ keys_present d <= 4)
            \/ (blank_fields d = 1 /\ keys_present d = 6)))
    /\ (final_status r = Some (value_of REJECTED) <->
        is_authoritative d = false
        \/ 2 <= blank_fields d
        \/ (blank_fields d = 1 /\ keys_present d <= 5)).
Proof.
  intros Htext. destruct (validate_data_point_returns isoformat_at d w Htext) as (r & w' & H).
  exists r, w'. split; [exact H|].
  rewrite (validate_data_point_status _ _ _ _ H). clear H.
  pose proof (count_keys_bounds (absent_or_blank d) sanity_keys) as Bk.
  pose proof (count_keys_bounds (Py.has_key d) required_keys) as Bp.
  fold (blank_fields d) in Bk. fold (keys_present d) in Bp.
  cbn [length sanity_keys required_keys] in Bk, Bp.
  unfold verdict.
  destruct (is_authoritative d); cbn [negb].
  2:{ repeat split; try discriminate; try tauto; intros (? & _); discriminate. }
  destruct (Z.eqb_spec (blank_fields d) 0) as [E0|N0].
  - destruct (Z.leb_spec 5 (keys_present d)); cbn [value_of];
      repeat split; try discriminate; try (intros; lia); intuition (try discriminate; try lia).
  - destruct (Z.eqb_spec (blank_fields d) 1) as [E1|N1]; cbn [andb].
    + destruct (Z.eqb_spec (keys_present d) 6); cbn [value_of];
        repeat split; try discriminate; intuition (try discriminate; try lia).
    + cbn [value_of]. repeat split; try discriminate; intuition (try discriminate; try lia).
Qed.
End Verdicts.

(** *** What a call reads of the validator and of the clock *)

(** The panel of layer 2 answers the same at any time, timestamps apart. *)
Lemma _layer_2_external_verification_untimed
  (isoformat_at isoformat_at' : nat -> string) (d : record) (n n' m m' : nat)
  (l l' : LayerResult) :
  _layer_2_external_verification isoformat_at d n = Returns l m ->
  _layer_2_external_verification isoformat_at' d n' = Returns l' m' ->
  layer_without_timestamps l = layer_without_timestamps l' /\ score l = score l'.
Proof.
  unfold _layer_2_external_verification, _verify_usps, _verify_google_maps,
    _verify_county_records, _verify_county_assessor, _verify_property_appraiser,
    now_isoformat.
  cbn [bind ret M_monad]. unfold layer_2_of_sources. cbn [List.filter valid].
  unfold eval. cbn [bind ret result_monad Py.truediv Py.len length].
  intros H H'. vm_compute in H, H'. injection H as <- _. injection H' as <- _.
  split; reflexivity.
Qed.

Section Two_clocks.
Variables isoformat_at isoformat_at' : nat -> string.

(** Property X2. What [validate_data_point] returns for a record depends
    on the record only: called on another validator, with another ledger
    and audit log, at another time, it returns as well, and the two
    reports are equal once their timestamps are blanked. *)
Theorem validate_data_point_state_independent
  (d : record) (w w1 w' : world) (r : ValidationReport) :
  validate_data_point isoformat_at d w = Returns r w1 ->
  exists r' w1',
    validate_data_point isoformat_at' d w' = Returns r' w1'
    /\ without_timestamps r' = without_timestamps r.
Proof.
  intros H.
  destruct (validate_data_point_inv _ _ _ _ _ H) as (Htext & _).
  destruct (validate_data_point_returns isoformat_at' d w' Htext) as (r' & w1' & H').
  exists r', w1'. split; [exact H'|].
  unfold validate_data_point in H, H'.
  run_cascade H; run_cascade H'.
  all: repeat match goal with
       | E : eval _ _ = Returns _ _ |- _ => apply eval_returns in E as [E _]
       end.
  all: repeat match goal with
       | E : ?m = inr ?a, E' : ?m = inr ?b |- _ =>
           rewrite E in E'; injection E' as <-
       end.
  all: try congruence.
  all: repeat match goal with
       | E : _layer_2_external_verification _ _ _ = Returns ?a _,
         E' : _layer_2_external_verification _ _ _ = Returns ?b _ |- _ =>
           destruct (_layer_2_external_verification_untimed _ _ _ _ _ _ _ _ _ E E')
             as [? ?]; clear E E'
       end.
  all: repeat match goal with
       | S : score ?a = score ?b |- _ => rewrite S in *; clear S
       end.
  all: try congruence.
  all: unfold without_timestamps;
    cbn [data_point validation_timestamp layer_1 layer_2 layer_3 final_score
         final_status audit_trail set_final_status set_final_score set_layer_1
         set_layer_2 set_layer_3 new_report option_map];
    repeat match goal with
    | E : layer_without_timestamps _ = layer_without_timestamps _ |- _ =>
        rewrite E; clear E
    end; reflexivity.
Qed.
End Two_clocks.

Section Clock.
Variable isoformat_at : nat -> string.

(** Property X3. How often a returned call reads the clock, and which
    reading goes where. The report's [validation_timestamp] is the first
    reading. A REJECTED run reads the clock twice, the second reading
    stamping its one audit entry. Every other run reads it nine times:
    readings 3 to 7 stamp the five answers of the panel of layer 2, in
    order, and readings 2, 8 and 9 stamp the three audit entries, so the
    entry of layer 2 is stamped after the answers it records. *)
Theorem validate_data_point_clock
  (d : record) (w w' : world) (r : ValidationReport) :
  validate_data_point isoformat_at d w = Returns r w' ->
  validation_timestamp r = isoformat_at (clock w)
  /\ ((final_status r = Some (value_of REJECTED)
       /\ clock w' = (2 + clock w)%nat
       /\ exists r1,
            layer_1 r = Some r1
            /\ audit_log (self w')
               = (audit_log (self w)
                  ++ [audit_entry (isoformat_at (1 + clock w)) 1 d r1])%list)
      \/ (final_status r <> Some (value_of REJECTED)
          /\ clock w' = (9 + clock w)%nat
          /\ exists r1 r2 r3,
               layer_1 r = Some r1 /\ layer_2 r = Some r2 /\ layer_3 r = Some r3
               /\ map timestamp (external_sources r2)
                  = map isoformat_at (seq (2 + clock w) 5)
               /\ audit_log (self w')
                  = (audit_log (self w)
                     ++ [audit_entry (isoformat_at (1 + clock w)) 1 d r1;
                         audit_entry (isoformat_at (7 + clock w)) 2 d r2;
                         audit_entry (isoformat_at (8 + clock w)) 3 d r3])%list)).
Proof.
  intros H.
  assert (Hstatus : final_status r = Some (value_of REJECTED) -> layer_2 r = None).
  { intros E. destruct (validate_data_point_outcomes _ _ _ _ _ H)
      as (r1 & _ & _ & [Hr | ([Hg | Hs] & _)]);
      [tauto | rewrite E in Hg; discriminate Hg | rewrite E in Hs; discriminate Hs]. }
  unfold validate_data_point in H. run_cascade H.
  all: repeat match goal with
       | E : eval _ _ = Returns _ _ |- _ => apply eval_returns in E as [_ ->]
       end.
  all: split; [reflexivity|].
  1: left; split; [reflexivity|]; split; [reflexivity|]; eexists; split; reflexivity.
  all: try (specialize (Hstatus eq_refl); discriminate Hstatus).
  all: right; split; [discriminate|].
  all: unfold _layer_2_external_verification, _verify_usps, _verify_google_maps,
      _verify_county_records, _verify_county_assessor, _verify_property_appraiser,
      now_isoformat, layer_2_of_sources, eval in Hlayer0;
    cbn [bind ret M_monad List.filter valid result_monad Py.truediv Py.len length
         Py.is_zero Z.of_nat Pos.of_succ_nat Pos.succ Z.eqb] in Hlayer0;
    injection Hlayer0 as <- <-.
  all: split; [reflexivity|]; do 3 eexists; repeat (split; [reflexivity|]);
    unfold audit_log_append, rejected_data_append, validation_history_append;
    cbn [audit_log self]; rewrite <- !app_assoc; reflexivity.
Qed.
End Clock.

(** *** A call that raises *)

Lemma blank_raises_attribute_error (d : record) (key : string) (e : Py.exn) :
  blank d key = inl e -> is_attribute_error e = true.
Proof.
  unfold blank, Py.get.
  destruct (d !! key) as [[s|[z|f]|b|]|]; cbn; intros H; inversion H; reflexivity.
Qed.

Lemma _check_data_quality_raises_attribute_error (d : record) (e : Py.exn) :
  _check_data_quality d = inl e -> is_attribute_error e = true.
Proof.
  unfold _check_data_quality.
  destruct (blank d "address") as [e1|b1] eqn:E1; cbn [bind result_monad].
  { intros H. injection H as <-. exact (blank_raises_attribute_error _ _ _ E1). }
  destruct (blank d "city") as [e2|b2] eqn:E2; cbn [bind result_monad].
  { intros H. injection H as <-. exact (blank_raises_attribute_error _ _ _ E2). }
  destruct (blank d "state") as [e3|b3] eqn:E3; cbn [bind result_monad].
  { intros H. injection H as <-. exact (blank_raises_attribute_error _ _ _ E3). }
  discriminate.
Qed.

Lemma _check_source_authenticity_raises_type_error (d : record) (e : Py.exn) :
  _check_source_authenticity d = inl e ->
  is_type_error e = true /\ str_or_absent d "source" = false.
Proof.
  destruct (str_or_absent d "source") eqn:Hsrc.
  { rewrite (_check_source_authenticity_text d Hsrc). discriminate. }
  revert Hsrc. unfold _check_source_authenticity, str_or_absent, Py.get.
  destruct (d !! "source") as [[s|[z|f]|b|]|]; try discriminate;
    intros _; cbn; intros H; inversion H; split; reflexivity.
Qed.

Section Raises.
Variable isoformat_at : nat -> string.

(** Property X4. A call of [validate_data_point] that raises has read the
    clock once and written nothing: the ledger and the audit log are as
    before. It raises only on a record with a text field that is not a
    string: a [TypeError] when the source is not a string (whatever the
    other fields hold), an [AttributeError] otherwise. *)
Theorem validate_data_point_raise_is_clean
  (d : record) (w w' : world) (e : Py.exn) :
  validate_data_point isoformat_at d w = Raises e w' ->
  self w' = self w
  /\ clock w' = S (clock w)
  /\ text_fields d = false
  /\ (if str_or_absent d "source" then is_attribute_error e else is_type_error e) = true.
Proof.
  intros H. destruct (text_fields d) eqn:Htext.
  { destruct (validate_data_point_returns isoformat_at d w Htext) as (r & w'' & E).
    rewrite E in H. discriminate H. }
  destruct (_layer_1_internal_verification_raises d Htext) as [e' He].
  unfold validate_data_point, cascade, on_clock, now_isoformat, eval in H.
  cbn [bind ret M_monad clock self] in H. rewrite He in H.
  injection H as <- <-. repeat split.
  unfold _layer_1_internal_verification in He.
  destruct (_check_source_authenticity d) as [e1|sc] eqn:Esc; cbn [bind result_monad] in He.
  - injection He as <-.
    destruct (_check_source_authenticity_raises_type_error d e1 Esc) as [Ht ->]. exact Ht.
  - rewrite _check_data_integrity_eq in He. cbn [bind result_monad] in He.
    destruct (_check_data_quality d) as [e3|qc] eqn:Eqc; cbn [bind result_monad] in He.
    + injection He as <-.
      destruct (str_or_absent d "source") eqn:Hsrc.
      * exact (_check_data_quality_raises_attribute_error d e3 Eqc).
      * destruct (_check_source_authenticity_raises d Hsrc) as [e0 E0]. congruence.
    + discriminate He.
Qed.
End Raises.

(** *** Batches *)

(** [sum(1 for _ in l)] is the length of [l]. *)
Lemma sum_of_ones {A : Type} (l : list A) :
  Py.sum (map (fun _ => Py.Int 1) l) = Py.Int (Z.of_nat (length l)).
Proof.
  unfold Py.sum.
  assert (G : forall (l : list A) (z : Z),
             fold_left Py.add (map (fun _ => Py.Int 1) l) (Py.Int z)
             = Py.Int (z + Z.of_nat (length l))).
  { clear l. induction l as [|x l IH]; intros z; cbn [map fold_left length].
    - f_equal. lia.
    - cbn [Py.add]. rewrite IH. f_equal. lia. }
  apply G.
Qed.

Section Batches.
Variable isoformat_at : nat -> string.

(** What a returned call adds to the validator: one report in one list
    of the ledger, and one audit entry per executed layer. *)
Lemma validate_data_point_growth (d : record) (w w' : world) (r : ValidationReport) :
  validate_data_point isoformat_at d w = Returns r w' ->
  data_point r = d
  /\ ((final_status r = Some (value_of REJECTED)
       /\ validation_history (self w') = validation_history (self w)
       /\ rejected_data (self w') = (rejected_data (self w) ++ [r])%list
       /\ length (audit_log (self w')) = (length (audit_log (self w)) + 1)%nat)
      \/ ((final_status r = Some (value_of GOLD) \/ final_status r = Some (value_of SILVER))
          /\ validation_history (self w') = (validation_history (self w) ++ [r])%list
          /\ rejected_data (self w') = rejected_data (self w)
          /\ length (audit_log (self w')) = (length (audit_log (self w)) + 3)%nat)).
Proof.
  intros H. pose proof H as Hc. unfold validate_data_point in Hc.
  destruct (cascade_audit_trail _ _ _ _ _ _ _ _ Hc) as [_ Hd].
  destruct (cascade_audit_log _ _ _ _ _ _ _ _ Hc) as (new & Hlog & Hlayers & _).
  apply (f_equal (@length Z)) in Hlayers. rewrite !length_map, length_seq in Hlayers.
  assert (Hlen : length (audit_log (self w'))
                 = (length (audit_log (self w)) + length (executed_layers r))%nat).
  { rewrite Hlog, length_app. lia. }
  split; [exact Hd|].
  destruct (validate_data_point_outcomes isoformat_at _ _ _ _ H) as (r1 & Hl1 & _ & [Hr | Hp]).
  - left. destruct Hr as (Hst & Hl2 & Hl3 & _).
    destruct (validate_data_point_ledger _ _ _ _ _ H) as [(Hs & Hh & Hj) | (Hs & Hh & Hj)].
    + unfold executed_layers in Hlen. rewrite Hl1, Hl2, Hl3 in Hlen. cbn in Hlen. auto.
    + unfold has_status in Hs. rewrite Hst in Hs. discriminate Hs.
  - right. destruct Hp as (Hst & _ & r2 & r3 & Hl2 & Hl3 & _).
    destruct (validate_data_point_ledger _ _ _ _ _ H) as [(Hs & Hh & Hj) | (Hs & Hh & Hj)].
    + unfold has_status in Hs. destruct Hst as [Hst | Hst]; rewrite Hst in Hs; discriminate Hs.
    + unfold executed_layers in Hlen. rewrite Hl1, Hl2, Hl3 in Hlen. cbn in Hlen. auto.
Qed.


(** What the loop adds to the validator. *)
Lemma validate_all_growth (ds : list record) (w w' : world) (rs : list ValidationReport) :
  validate_all isoformat_at ds w = Returns rs w' ->
  let '(g, s, j) := tally rs in
  map data_point rs = ds
  /\ (g + s + j = length ds)%nat
  /\ List.filter (has_status BRONZE) rs = []
  /\ length (validation_history (self w'))
     = (length (validation_history (self w)) + (g + s))%nat
  /\ length (rejected_data (self w')) = (length (rejected_data (self w)) + j)%nat
  /\ length (audit_log (self w'))
     = (length (audit_log (self w)) + 3 * (g + s) + j)%nat.
Proof.
  revert w rs. induction ds as [|d ds IH]; intros w rs H.
  - cbn in H. injection H as <- <-. cbn. repeat split; lia.
  - cbn [validate_all bind M_monad] in H.
    destruct (validate_data_point isoformat_at d w) as [r w1|e w1] eqn:Hd; [|discriminate H].
    destruct (validate_all isoformat_at ds w1) as [rs' w2|e w2] eqn:Hrest; [|discriminate H].
    cbn in H. injection H as <- <-.
    specialize (IH _ _ Hrest). unfold tally in *. cbn [List.filter map length].
    destruct IH as (IHd & IHn & IHb & IHh & IHj & IHa).
    assert (Hhas : forall v s, final_status r = Some (value_of v) ->
              has_status s r = String.eqb (value_of v) (value_of s)).
    { intros v s E. unfold has_status. rewrite E. reflexivity. }
    destruct (validate_data_point_growth d w w1 r Hd)
      as (Hdp & [(Hst & Hh & Hj & Ha) | ([Hst | Hst] & Hh & Hj & Ha)]);
      rewrite !(Hhas _ _ Hst); cbn [value_of String.eqb Ascii.eqb Bool.eqb];
      cbn [length]; rewrite Hdp, IHd, IHh, IHj, IHa, Hh, Hj, Ha, ?length_app;
      cbn [length]; repeat split; try assumption; try lia.
Qed.

(** Property X5. A batch report that is returned accounts for every
    record: [total_data_points] is the length of the input, the results
    are the reports of the records in the order given, the counts of GOLD,
    SILVER and REJECTED add up to that length and the count of BRONZE is
    0. Its [audit_log] is the validator's whole log, the entries of
    earlier calls included, grown by three entries for each record kept
    and one for each record rejected. *)
Theorem generate_validation_report_statistics
  (data_points : list record) (w w' : world) (batch : BatchReport) :
  generate_validation_report isoformat_at data_points w = Returns batch w' ->
  total_data_points batch = Py.Int (Z.of_nat (length data_points))
  /\ map data_point (validation_results batch) = data_points
  /\ exists g s j : nat,
       gold (statistics batch) = Py.Int (Z.of_nat g)
       /\ silver (statistics batch) = Py.Int (Z.of_nat s)
       /\ bronze (statistics batch) = Py.Int 0
       /\ rejected (statistics batch) = Py.Int (Z.of_nat j)
       /\ (g + s + j = length data_points)%nat
       /\ batch_audit_log batch = audit_log (self w')
       /\ length (batch_audit_log batch)
          = (length (audit_log (self w)) + 3 * (g + s) + j)%nat.
Proof.
  unfold generate_validation_report. cbn [bind M_monad].
  destruct (validate_all isoformat_at data_points w) as [rs w1|e w1] eqn:Hall;
    [|discriminate].
  unfold on_clock, now_isoformat, get_state. cbn [bind ret M_monad clock self].
  intros H. injection H as <- <-.
  pose proof (validate_all_growth _ _ _ _ Hall) as G. unfold tally in G.
  destruct G as (Hd & Hn & Hb & _ & _ & Ha).
  cbn [total_data_points validation_results statistics gold silver bronze rejected
       batch_audit_log self].
  split; [reflexivity|]. split; [exact Hd|].
  exists (length (List.filter (has_status GOLD) rs)),
         (length (List.filter (has_status SILVER) rs)),
         (length (List.filter (has_status REJECTED) rs)).
  unfold count_status. rewrite !sum_of_ones, Hb. repeat split; assumption.
Qed.


(** The two public methods keep the ledger sound. *)
Lemma validate_data_point_keeps_ledger_sound (d : record) (w : world) :
  ledger_sound (self w) ->
  ledger_sound (self (state_after (validate_data_point isoformat_at d w))).
Proof.
  intros (Hh & Hj & Ha).
  destruct (validate_data_point isoformat_at d w) as [r w'|e w'] eqn:H; cbn [state_after].
  - destruct (validate_data_point_growth _ _ _ _ H)
      as (_ & [(Hst & Eh & Ej & Ea) | (Hst & Eh & Ej & Ea)]);
      unfold ledger_sound; rewrite Eh, Ej, Ea, ?length_app; cbn [length];
      (split; [|split; [|lia]]); rewrite ?Forall_app; repeat split; try assumption;
      repeat constructor.
    + unfold has_status. rewrite Hst. reflexivity.
    + unfold status_among, has_status. cbn [existsb].
      destruct Hst as [-> | ->]; reflexivity.
  - destruct (validate_data_point_raises _ _ _ _ _ H) as (_ & _ & ->).
    unfold ledger_sound. auto.
Qed.

Lemma validate_all_keeps_ledger_sound (ds : list record) (w : world) :
  ledger_sound (self w) ->
  ledger_sound (self (state_after (validate_all isoformat_at ds w))).
Proof.
  revert w. induction ds as [|d ds IH]; intros w Hw; [exact Hw|].
  cbn [validate_all bind M_monad].
  pose proof (validate_data_point_keeps_ledger_sound d w Hw) as Hd.
  destruct (validate_data_point isoformat_at d w) as [r w1|e w1]; cbn [state_after] in *;
    [|exact Hd].
  specialize (IH w1 Hd).
  destruct (validate_all isoformat_at ds w1) as [rs w2|e w2]; exact IH.
Qed.

(** Property X7. In every state a validator reaches from its creation,
    by calls of [validate_data_point] and [generate_validation_report]
    that return or raise: [get_releasable_data] is the whole of
    [validation_history] (its filter removes nothing), every report of
    [get_rejected_data] is REJECTED, no report of the history is REJECTED
    or BRONZE, and the audit log has three entries for each report of the
    history and one for each rejected report. *)
Theorem reachable_ledger_sound (w : world) :
  reachable isoformat_at w ->
  get_releasable_data (self w) = validation_history (self w)
  /\ Forall (fun r => has_status REJECTED r = true) (get_rejected_data (self w))
  /\ Forall (fun r => has_status REJECTED r = false /\ has_status BRONZE r = false)
            (validation_history (self w))
  /\ length (audit_log (self w))
     = (3 * length (validation_history (self w))
        + length (rejected_data (self w)))%nat.
Proof.
  intros Hreach.
  assert (Hsound : ledger_sound (self w)).
  { induction Hreach as [n | w d _ IH | w ds _ IH].
    - unfold ledger_sound. cbn. auto.
    - apply validate_data_point_keeps_ledger_sound. exact IH.
    - unfold generate_validation_report. cbn [bind M_monad].
      pose proof (validate_all_keeps_ledger_sound ds w IH) as Hall.
      destruct (validate_all isoformat_at ds w) as [rs w1|e w1];
        unfold on_clock, now_isoformat, get_state;
        cbn [bind ret M_monad state_after self clock] in *; exact Hall. }
  destruct Hsound as (Hh & Hj & Ha). unfold get_releasable_data, get_rejected_data.
  split; [|split; [exact Hj|split; [|exact Ha]]].
  - clear Ha. induction Hh as [|r l Hr _ IH]; [reflexivity|]. cbn [List.filter].
    rewrite Hr, IH. reflexivity.
  - eapply List.Forall_impl; [|exact Hh]. cbv beta. intros r Hr.
    split; [exact (releasable_not_rejected r Hr)|].
    revert Hr. unfold status_among, has_status. cbn [existsb value_of].
    destruct (final_status r) as [v|]; [|discriminate].
    rewrite orb_false_r, orb_true_iff, !String.eqb_eq. intros [-> | ->]; reflexivity.
Qed.
End Batches.

(** *** Layers 2 and 3 on arbitrary answers *)



(** Counting the valid answers is counting the flags. *)
Lemma filter_valid_length (sources : list ExternalSourceResult) :
  length (List.filter valid sources)
  = length (List.filter (fun b : bool => b) (map valid sources)).
Proof.
  induction sources as [|s rest IH]; [reflexivity|]. cbn [List.filter map].
  destruct (valid s); cbn [length]; rewrite IH; reflexivity.
Qed.

(** Property X9. Layer 2 reads nothing of the answers of its panel but
    their [valid] flags: two panels with the same flags, whatever their
    sources, confidences, urls and timestamps, get the same agreement
    percentage and the same score. The confidence an answer reports has
    no effect. *)
Theorem layer_2_of_sources_reads_valid_only
  (sources sources' : list ExternalSourceResult) :
  map valid sources = map valid sources' ->
  exists r r' agreement,
    layer_2_of_sources sources = inr r
    /\ layer_2_of_sources sources' = inr r'
    /\ detail r = External sources agreement
    /\ detail r' = External sources' agreement
    /\ score r = score r'.
Proof.
  intros H.
  assert (Hv : length (List.filter valid sources) = length (List.filter valid sources'))
    by (rewrite !filter_valid_length, H; reflexivity).
  assert (Hl : length sources = length sources')
    by (rewrite <- (length_map valid sources), H, length_map; reflexivity).
  destruct (Nat.eq_dec (length (List.filter valid sources)) 0%nat) as [Hz|Hnz].
  - rewrite (layer_2_of_sources_none sources Hz).
    rewrite Hv in Hz. rewrite (layer_2_of_sources_none sources' Hz).
    do 3 eexists. repeat split.
  - rewrite (layer_2_of_sources_some sources Hnz).
    rewrite Hv in Hnz. rewrite (layer_2_of_sources_some sources' Hnz).
    rewrite Hv, Hl. do 3 eexists. repeat split.
Qed.

(** *** What layer 1 reads of a record *)

Lemma string_append_assoc (a b c : string) : (a ++ b) ++ c = a ++ (b ++ c).
Proof.
  induction a as [|x a IH]; [reflexivity|].
  change (String x ((a ++ b) ++ c) = String x (a ++ b ++ c)). rewrite IH. reflexivity.
Qed.

(** Property X10. The allow-list is searched for inside the source
    string: a source that passes the authenticity check still passes it,
    with score 99, after any text is put before and after it. *)
Theorem _check_source_authenticity_embeds
  (d d' : record) (s pre post : string) (c : SourceCheck) :
  d !! "source" = Some (Py.VStr s) ->
  d' !! "source" = Some (Py.VStr (pre ++ s ++ post)) ->
  _check_source_authenticity d = inr c ->
  is_authentic c = true ->
  exists c',
    _check_source_authenticity d' = inr c'
    /\ is_authentic c' = true
    /\ source_check_score c' = Py.Int 99.
Proof.
  intros Hd Hd' Hc Hauth.
  assert (Hs : str_or_absent d "source" = true) by (unfold str_or_absent; rewrite Hd; reflexivity).
  assert (Hs' : str_or_absent d' "source" = true) by (unfold str_or_absent; rewrite Hd'; reflexivity).
  rewrite (_check_source_authenticity_text d Hs) in Hc. injection Hc as <-.
  cbn [is_authentic] in Hauth. unfold text in Hauth. rewrite Hd in Hauth.
  assert (Hany : existsb (Py.contains s) authoritative_sources = true) by exact Hauth.
  apply existsb_exists in Hany as (entry & Hin & Hocc).
  apply contains_spec in Hocc as (p1 & p2 & ->).
  assert (Hex : existsb (Py.contains (text d' "source")) authoritative_sources = true).
  { apply existsb_exists. exists entry. split; [exact Hin|]. apply contains_spec.
    unfold text. rewrite Hd'. cbv beta iota. exists (pre ++ p1), (p2 ++ post).
    rewrite !string_append_assoc. reflexivity. }
  rewrite (_check_source_authenticity_text d' Hs'). eexists. split; [reflexivity|].
  cbn [is_authentic source_check_score]. unfold source_authenticity. rewrite Hex. auto.
Qed.

(** Layer 1 and the audit entries read the same of two records with the
    same reading. *)
Lemma _layer_1_internal_verification_reading (d d' : record) :
  same_reading d d' ->
  _layer_1_internal_verification d = _layer_1_internal_verification d'
  /\ Py.get d "address" (Py.VStr "unknown") = Py.get d' "address" (Py.VStr "unknown").
Proof.
  intros [Hsame Hpresent].
  assert (Hsource := Hsame "source" ltac:(cbn; tauto)).
  assert (Haddress := Hsame "address" ltac:(cbn; tauto)).
  assert (Hcity := Hsame "city" ltac:(cbn; tauto)).
  assert (Hstate := Hsame "state" ltac:(cbn; tauto)).
  assert (Hzip := Hpresent "zip" ltac:(cbn; tauto)).
  assert (Htimestamp := Hpresent "timestamp" ltac:(cbn; tauto)).
  unfold _layer_1_internal_verification, _check_source_authenticity,
    _check_data_integrity, _check_data_quality, blank, Py.get.
  rewrite Hzip, Htimestamp. unfold Py.has_key.
  rewrite Hsource, Haddress, Hcity, Hstate. split; reflexivity.
Qed.

Section Reading.
Variable isoformat_at : nat -> string.

(** Property X11. [validate_data_point] reads the values of source,
    address, city and state, and of zip and timestamp only whether they
    are present. Two records that agree on these get, from the same
    state, the same layers, final score and status, the same audit
    entries and the same number of clock readings, or the same exception:
    the value and the type of the zip code and of the timestamp, and any
    other key, change nothing but the [data_point] the report carries. *)
Theorem validate_data_point_reads_four_values
  (d d' : record) (w : world) :
  same_reading d d' ->
  (forall r w1,
     validate_data_point isoformat_at d w = Returns r w1 ->
     exists r' w1',
       validate_data_point isoformat_at d' w = Returns r' w1'
       /\ data_point r' = d'
       /\ validation_timestamp r' = validation_timestamp r
       /\ layer_1 r' = layer_1 r /\ layer_2 r' = layer_2 r /\ layer_3 r' = layer_3 r
       /\ final_score r' = final_score r /\ final_status r' = final_status r
       /\ audit_log (self w1') = audit_log (self w1)
       /\ clock w1' = clock w1)
  /\ (forall e w1,
        validate_data_point isoformat_at d w = Raises e w1 ->
        validate_data_point isoformat_at d' w = Raises e w1).
Proof.
  intros Hread.
  destruct (_layer_1_internal_verification_reading d d' Hread) as [Hl1 Haddr].
  split.
  - intros r w1 H. unfold validate_data_point in *.
    unfold cascade at 1. unfold audit_entry. rewrite <- Hl1, <- Haddr.
    change (_layer_2_external_verification isoformat_at d')
      with (_layer_2_external_verification isoformat_at d).
    change (_layer_3_reproducibility_test d') with (_layer_3_reproducibility_test d).
    run_cascade H.
    all: unfold on_clock, on_self, now_isoformat;
      cbn [bind ret M_monad clock self];
      rewrite ?Hlayer; cbn [bind ret M_monad clock self]; rewrite ?Hgate;
      cbn [bind ret M_monad clock self];
      rewrite ?Hlayer0; cbn [bind ret M_monad clock self]; rewrite ?Hgate0;
      cbn [bind ret M_monad clock self];
      rewrite ?Hlayer1; cbn [bind ret M_monad clock self]; rewrite ?Hgate1;
      cbn [bind ret M_monad clock self];
      rewrite ?Hband, ?Hband0, ?Hband1;
      cbn [bind ret M_monad clock self];
      do 2 eexists; (split; [reflexivity|]); repeat split.
  - intros e w1 H.
    destruct (validate_data_point_raises isoformat_at d w w1 e H) as (_ & He & _).
    unfold validate_data_point, cascade, on_clock, now_isoformat, eval in *.
    cbn [bind ret M_monad clock self] in *. rewrite <- Hl1. rewrite He in *. exact H.
Qed.
End Reading.

(** *** A layer method that raises *)

Section Cascade_raises.
Variable isoformat_at : nat -> string.
Variables layer_1_method layer_2_method layer_3_method : record -> M nat LayerResult.

End Cascade_raises.

(** *** More of a record never scores less *)

Lemma layer_1_grid_monotone : forallb check_monotone layer_1_grid = true.
Proof. vm_compute. reflexivity. Qed.

(** A weaker test counts fewer keys. *)
Lemma count_keys_mono (test test' : string -> bool) (keys : list string) :
  (forall key, test key = true -> test' key = true) ->
  count_keys test keys <= count_keys test' keys.
Proof.
  intros H. unfold count_keys. apply inj_le.
  induction keys as [|k keys IH]; [reflexivity|]. cbn [List.filter].
  destruct (test k) eqn:E.
  - rewrite (H k E). cbn [length]. lia.
  - destruct (test' k); cbn [length]; lia.
Qed.

(** A record that has every entry of another is at least as good in each
    sub-check, and its text fields are strings only if the other's are. *)
Lemma subseteq_at_most (d d' : record) :
  d ⊆ d' ->
  at_most (is_authoritative d, keys_present d, blank_fields d)
          (is_authoritative d', keys_present d', blank_fields d') = true
  /\ (text_fields d' = true -> text_fields d = true).
Proof.
  intros Hsub.
  assert (Hl : forall key v, d !! key = Some v -> d' !! key = Some v)
    by (intros key v E; exact (lookup_weaken _ _ _ _ E Hsub)).
  split.
  - unfold at_most. rewrite !andb_true_iff. split; [split|].
    + unfold is_authoritative, text.
      destruct (d !! "source") as [v|] eqn:E; [rewrite (Hl _ _ E); destruct (existsb _ _); reflexivity|].
      reflexivity.
    + apply Z.leb_le. apply count_keys_mono. intros key. unfold Py.has_key.
      destruct (d !! key) as [v|] eqn:E; [rewrite (Hl _ _ E); reflexivity | discriminate].
    + apply Z.leb_le. apply count_keys_mono. intros key. unfold absent_or_blank.
      destruct (d !! key) as [v|] eqn:E; [rewrite (Hl _ _ E); tauto | reflexivity].
  - unfold text_fields. rewrite !forallb_forall. intros H key Hin.
    specialize (H key Hin). unfold str_or_absent in *.
    destruct (d !! key) as [v|] eqn:E; [rewrite (Hl _ _ E) in H; exact H | reflexivity].
Qed.

Section Monotone.
Variable isoformat_at : nat -> string.

(** The final score and status of a returned report, read off the grid. *)
Lemma validate_data_point_on_grid (d : record) (w w' : world) (r : ValidationReport) :
  validate_data_point isoformat_at d w = Returns r w' ->
  final_score r = final_of (is_authoritative d, keys_present d, blank_fields d)
  /\ final_status r
     = Some (value_of (status_of (is_authoritative d, keys_present d, blank_fields d))).
Proof.
  intros H. unfold final_of, status_of.
  fold (record_score d). cbv zeta.
  destruct (validate_data_point_inv _ _ _ _ _ H) as (_ & r1 & _ & Hs1 & _ & [Hrej | Hpass]).
  - destruct Hrej as (Hlt & _ & _ & Hst & Hfs). rewrite Hs1 in Hlt, Hfs.
    unfold record_score in Hlt. unfold is_authoritative, keys_present, blank_fields.
    rewrite Hlt. auto.
  - destruct Hpass as (Hlt & r2 & r3 & _ & _ & Hs2 & Hs3 & Hfs & Hst).
    rewrite Hs1 in Hlt. rewrite Hst, Hfs, Hs1, Hs2, Hs3.
    unfold record_score in Hlt. unfold is_authoritative, keys_present, blank_fields.
    rewrite Hlt. auto.
Qed.

(** Property X13. A record that has every entry of another, and more,
    never does worse: when its text fields are strings both calls return,
    the final score of the larger record is at least that of the smaller
    and its status is no lower in the order REJECTED, BRONZE, SILVER,
    GOLD. Filling in a missing key, whatever string goes under it, never
    costs a record its status. *)
Theorem validate_data_point_monotone (d d' : record) (w w' : world) :
  d ⊆ d' ->
  text_fields d' = true ->
  exists r w1 r' w1' s s',
    validate_data_point isoformat_at d w = Returns r w1
    /\ validate_data_point isoformat_at d' w' = Returns r' w1'
    /\ Py.le (final_score r) (final_score r') = true
    /\ final_status r = Some (value_of s)
    /\ final_status r' = Some (value_of s')
    /\ rank s <= rank s'.
Proof.
  intros Hsub Htext'.
  destruct (subseteq_at_most d d' Hsub) as [Hle Htext]. specialize (Htext Htext').
  destruct (validate_data_point_returns isoformat_at d w Htext) as (r & w1 & H).
  destruct (validate_data_point_returns isoformat_at d' w' Htext') as (r' & w1' & H').
  destruct (validate_data_point_on_grid _ _ _ _ H) as [Hf Hs].
  destruct (validate_data_point_on_grid _ _ _ _ H') as [Hf' Hs'].
  pose proof layer_1_grid_monotone as G. rewrite forallb_forall in G.
  specialize (G _ (record_in_grid d)). unfold check_monotone in G.
  rewrite forallb_forall in G. specialize (G _ (record_in_grid d')).
  fold (is_authoritative d) (keys_present d) (blank_fields d)
       (is_authoritative d') (keys_present d') (blank_fields d') in G.
  rewrite Hle in G. cbn [implb] in G. apply andb_prop in G as [G1 G2].
  apply Z.leb_le in G2.
  exists r, w1, r', w1'. do 2 eexists.
  split; [exact H|]. split; [exact H'|]. rewrite Hf, Hf'.
  split; [exact G1|]. split; [exact Hs|]. split; [exact Hs' | exact G2].
Qed.
End Monotone.

(** ** The further properties on example records *)

(** X1 on the record with a blank city: SILVER. *)
Lemma validate_data_point_verdict_witness :
  text_fields blank_city = true
  /\ exists r w',
       validate_data_point ticking blank_city fresh = Returns r w'
       /\ final_status r = Some (value_of SILVER).
Proof.
  split; [reflexivity|].
  destruct (validate_data_point_verdict ticking blank_city fresh eq_refl)
    as (r & w' & H & _ & Hsilver & _).
  exists r, w'. split; [exact H|]. apply Hsilver.
  split; [vm_compute; reflexivity|]. right. split; vm_compute; reflexivity.
Defined.

(** X2 on the first record, validated by a fresh validator and by one
    that has a ledger already. *)
Lemma validate_data_point_state_independent_witness :
  exists r w1 r' w1',
    validate_data_point ticking riverside fresh = Returns r w1
    /\ validate_data_point noon riverside seasoned = Returns r' w1'
    /\ without_timestamps r' = without_timestamps r.
Proof.
  eassert (H : validate_data_point ticking riverside fresh = Returns _ _)
    by (vm_compute; reflexivity).
  destruct (validate_data_point_state_independent ticking noon riverside fresh _ seasoned _ H)
    as (r' & w1' & H' & E).
  do 4 eexists. split; [exact H|]. split; [exact H' | exact E].
Defined.

(** X3 on the first record: nine readings of the clock. *)
Lemma validate_data_point_clock_witness :
  exists r w',
    validate_data_point ticking riverside fresh = Returns r w'
    /\ validation_timestamp r = ticking 0
    /\ clock w' = 9%nat.
Proof.
  eassert (H : validate_data_point ticking riverside fresh = Returns _ _)
    by (vm_compute; reflexivity).
  destruct (validate_data_point_clock ticking riverside fresh _ _ H)
    as [Hts [(Hrej & _) | (_ & Hclock & _)]].
  - vm_compute in Hrej. discriminate Hrej.
  - do 2 eexists. split; [exact H|]. split; [exact Hts | exact Hclock].
Defined.

(** X4 on the record with a number for an address. *)
Lemma validate_data_point_raise_is_clean_witness :
  exists e w',
    validate_data_point ticking numeric_address fresh = Raises e w'
    /\ self w' = self fresh
    /\ is_attribute_error e = true.
Proof.
  eassert (H : validate_data_point ticking numeric_address fresh = Raises _ _)
    by (vm_compute; reflexivity).
  destruct (validate_data_point_raise_is_clean ticking numeric_address fresh _ _ H)
    as (Hself & _ & _ & Herr).
  do 2 eexists. split; [exact H|]. split; [exact Hself | exact Herr].
Defined.

(** X5 on a batch of three records. *)
Lemma generate_validation_report_statistics_witness :
  exists batch w',
    generate_validation_report ticking [riverside; hearsay; blank_city] fresh
    = Returns batch w'
    /\ total_data_points batch = Py.Int 3
    /\ map data_point (validation_results batch) = [riverside; hearsay; blank_city]
    /\ bronze (statistics batch) = Py.Int 0.
Proof.
  eassert (H : generate_validation_report ticking [riverside; hearsay; blank_city] fresh
               = Returns _ _) by (vm_compute; reflexivity).
  destruct (generate_validation_report_statistics ticking _ fresh _ _ H)
    as (Htotal & Hresults & g & s & j & _ & _ & Hbronze & _).
  do 2 eexists. split; [exact H|]. split; [exact Htotal|].
  split; [exact Hresults | exact Hbronze].
Defined.


(** X7 on a validator that has run a batch. *)
Lemma reachable_ledger_sound_witness :
  reachable ticking seasoned
  /\ get_releasable_data (self seasoned) = validation_history (self seasoned)
  /\ length (audit_log (self seasoned)) = 4%nat.
Proof.
  assert (Hreach : reachable ticking seasoned)
    by exact (reachable_report ticking _ [hearsay; blank_city] (reachable_init ticking 40)).
  destruct (reachable_ledger_sound ticking seasoned Hreach) as (Hrel & _ & _ & Hlog).
  split; [exact Hreach|]. split; [exact Hrel|]. rewrite Hlog. vm_compute. reflexivity.
Defined.


(** X9 on two panels with the same three valid answers. *)
Lemma layer_2_of_sources_reads_valid_only_witness :
  map valid three_of_five = map valid three_of_five_unsure
  /\ exists r r',
       layer_2_of_sources three_of_five = inr r
       /\ layer_2_of_sources three_of_five_unsure = inr r'
       /\ score r = score r'.
Proof.
  split; [reflexivity|].
  destruct (layer_2_of_sources_reads_valid_only three_of_five three_of_five_unsure eq_refl)
    as (r & r' & agreement & H & H' & _ & _ & Hscore).
  exists r, r'. split; [exact H|]. split; [exact H' | exact Hscore].
Defined.

(** X10 on the first record and a longer name for its source. *)
Lemma _check_source_authenticity_embeds_witness :
  exists c c',
    (riverside !! "source" = Some (Py.VStr "County Assessor")
     /\ assessor_office !! "source"
        = Some (Py.VStr ("St. Lucie " ++ "County Assessor" ++ ", main office"))
     /\ _check_source_authenticity riverside = inr c
     /\ is_authentic c = true)
    /\ _check_source_authenticity assessor_office = inr c'
    /\ source_check_score c' = Py.Int 99.
Proof.
  eassert (H : _check_source_authenticity riverside = inr _) by (vm_compute; reflexivity).
  destruct (_check_source_authenticity_embeds riverside assessor_office
              "County Assessor" "St. Lucie " ", main office" _
              eq_refl eq_refl H eq_refl) as (c' & H' & _ & Hscore).
  eexists. exists c'. split; [repeat split; first [exact H | reflexivity]|].
  split; [exact H' | exact Hscore].
Defined.

(** The first record and its renumbered copy have the same reading. *)
Lemma same_reading_renumbered : same_reading riverside renumbered.
Proof.
  split; intros key Hin; cbn [In sanity_keys] in Hin;
    repeat (destruct Hin as [<- | Hin]; [vm_compute; reflexivity|]); contradiction.
Qed.

(** X11 on the first record and a copy with a number for a zip code and
    one more key. *)
Lemma validate_data_point_reads_four_values_witness :
  same_reading riverside renumbered
  /\ exists r w1 r' w1',
       validate_data_point ticking riverside fresh = Returns r w1
       /\ validate_data_point ticking renumbered fresh = Returns r' w1'
       /\ final_score r' = final_score r
       /\ final_status r' = final_status r.
Proof.
  split; [exact same_reading_renumbered|].
  eassert (H : validate_data_point ticking riverside fresh = Returns _ _)
    by (vm_compute; reflexivity).
  destruct (proj1 (validate_data_point_reads_four_values
                     ticking riverside renumbered fresh same_reading_renumbered) _ _ H)
    as (r' & w1' & H' & _ & _ & _ & _ & _ & Hscore & Hstatus & _).
  do 4 eexists. split; [exact H|]. split; [exact H'|]. split; [exact Hscore | exact Hstatus].
Defined.


(** X13 on the first record without and with its address. *)
Lemma validate_data_point_monotone_witness :
  (no_address ⊆ riverside /\ text_fields riverside = true)
  /\ exists r w1 r' w1',
       validate_data_point ticking no_address fresh = Returns r w1
       /\ validate_data_point ticking riverside fresh = Returns r' w1'
       /\ Py.le (final_score r) (final_score r') = true.
Proof.
  assert (Hsub : no_address ⊆ riverside) by apply delete_subseteq.
  split; [split; [exact Hsub | reflexivity]|].
  destruct (validate_data_point_monotone ticking no_address riverside fresh fresh Hsub eq_refl)
    as (r & w1 & r' & w1' & s & s' & H & H' & Hle & _).
  exists r, w1, r', w1'. split; [exact H|]. split; [exact H' | exact Hle].
Defined.
